(** * pxpilot: start-up automation for a Proxmox cluster

    A shallow embedding of the Python sources

    - [pxvmflow/pxtool/px.py]  (the [ProxmoxClient] wrapper around proxmoxer),
    - [pxpilot/pilot.py]       (process entry point and config validation),

    together with models of the collaborators that these files import but
    that are not among the sources (notification manager, VM starter,
    executor), written from the specification and marked as such.

    Python values are kept as a small tagged union, exceptions as an
    inductive type, fallible calls return a [Py.result], and console / logger /
    notification side effects are recorded in explicit traces. *)

From stdpp Require Import base numbers option list strings pretty gmap.

Open Scope string_scope.
Open Scope list_scope.

(* ===================================================================== *)
(** * Python values, exceptions and results                              *)
(* ===================================================================== *)

Module Py.

(** The values a YAML configuration can put into a scalar field.  A float is
    kept as its printed form together with the outcome of comparing it to
    zero, which is all the code below ever observes of it. *)
Inductive value : Type :=
| PyNone
| PyBool (b : bool)
| PyInt (n : Z)
| PyFloat (repr : string) (is_zero : bool)
| PyStr (s : string).

(** [str(v)], also what an f-string placeholder [{v}] produces. *)
Definition str (v : value) : string :=
  match v with
  | PyNone => "None"
  | PyBool true => "True"
  | PyBool false => "False"
  | PyInt n => pretty n
  | PyFloat repr _ => repr
  | PyStr s => s
  end.

(** [v is None] *)
Definition is_none (v : value) : bool :=
  match v with PyNone => true | _ => false end.

(** [v == 0]; [bool] is a subclass of [int], so [False == 0] holds. *)
Definition eq_zero (v : value) : bool :=
  match v with
  | PyNone => false
  | PyBool b => negb b
  | PyInt n => bool_decide (n = 0%Z)
  | PyFloat _ z => z
  | PyStr _ => false
  end.

(** [isinstance(v, int)]; true for [bool] as well. *)
Definition isinstance_int (v : value) : bool :=
  match v with
  | PyInt _ | PyBool _ => true
  | _ => false
  end.

(** Exceptions.  The first three groups derive from [Exception]; the last
    two derive from [BaseException] only and are not caught by
    [except Exception]. *)
Inductive exn : Type :=
| ResourceException (message content : string)
  (* proxmoxer.ResourceException: [str(ex)] and [ex.content] *)
| ProxmoxException (message : string)
  (* pxvmflow.exceptions.ProxmoxException *)
| OtherException (cls message : string)
  (* any other subclass of Exception, by class name *)
| KeyboardInterrupt
| SystemExit (code : Z).

(** [isinstance(e, Exception)] *)
Definition is_Exception (e : exn) : bool :=
  match e with
  | ResourceException _ _ | ProxmoxException _ | OtherException _ _ => true
  | KeyboardInterrupt | SystemExit _ => false
  end.

(** [isinstance(e, ResourceException)] *)
Definition is_ResourceException (e : exn) : bool :=
  match e with ResourceException _ _ => true | _ => false end.

(** [isinstance(e, ProxmoxException)] *)
Definition is_ProxmoxException (e : exn) : bool :=
  match e with ProxmoxException _ => true | _ => false end.

(** [str(e)] *)
Definition exn_str (e : exn) : string :=
  match e with
  | ResourceException m _ => m
  | ProxmoxException m => m
  | OtherException _ m => m
  | KeyboardInterrupt => ""
  | SystemExit c => pretty c
  end.

(** Outcome of a call: a returned value or a raised exception. *)
Inductive result (A : Type) : Type :=
| Ret (a : A)
| Raise (e : exn).
Arguments Ret {A} a.
Arguments Raise {A} e.

Definition bind {A B} (r : result A) (k : A → result B) : result B :=
  match r with
  | Ret a => k a
  | Raise e => Raise e
  end.

(** [s1.startswith]-style prefix test on strings. *)
Fixpoint is_prefix (p s : string) : bool :=
  match p, s with
  | EmptyString, _ => true
  | String a p', String b s' => bool_decide (a = b) && is_prefix p' s'
  | String _ _, EmptyString => false
  end.

(** [needle in hay] for two strings: substring search, left to right. *)
Fixpoint str_in (needle hay : string) : bool :=
  is_prefix needle hay ||
  match hay with
  | EmptyString => false
  | String _ hay' => str_in needle hay'
  end.

(** [needle in v] for an arbitrary value [v]: a [TypeError] unless [v] is a
    string (None, numbers and booleans are not iterable). *)
Definition contains (needle : string) (v : value) : result bool :=
  match v with
  | PyStr s => Ret (str_in needle s)
  | PyNone => Raise (OtherException "TypeError" "argument of type 'NoneType' is not iterable")
  | PyBool _ => Raise (OtherException "TypeError" "argument of type 'bool' is not iterable")
  | PyInt _ => Raise (OtherException "TypeError" "argument of type 'int' is not iterable")
  | PyFloat _ _ => Raise (OtherException "TypeError" "argument of type 'float' is not iterable")
  end.

End Py.

#[global] Instance result_ret : MRet Py.result := λ A a, Py.Ret a.
#[global] Instance result_bind : MBind Py.result := λ A B k r, Py.bind r k.

(* ===================================================================== *)
(** * pxvmflow/pxtool/px.py                                              *)
(* ===================================================================== *)

Module Px.

(** Keyword arguments handed to [proxmoxer.ProxmoxAPI]. *)
Record api_args : Type := ApiArgs {
  arg_host : Py.value;
  arg_port : Py.value;
  arg_user : string;
  arg_password : Py.value;
  arg_verify_ssl : Py.value;
  arg_timeout : Z
}.

(** A [ProxmoxAPI] object as the client uses it: [api(command).get()] and
    [api(command).post()]. *)
Record ProxmoxAPI : Type := {
  api_get : string → Py.result Py.value;
  api_post : string → Py.result Py.value
}.

Record ProxmoxClient : Type := {
  _host : Py.value;
  _port : Py.value;
  _user : Py.value;
  _realm : Py.value;
  _password : Py.value;
  _verify_ssl : Py.value;
  _proxmox : option ProxmoxAPI
}.

(** The members of [pxvmflow.consts.ProxmoxCommand] as an f-string prints
    them; the module is not among the sources. *)
Record ProxmoxCommand : Type := {
  START : string;
  SHUTDOWN : string;
  CURRENT : string
}.

Section Client.
(** [proxmoxer.ProxmoxAPI(...)]: may fail, e.g. on authentication. *)
Variable new_api : api_args → Py.result ProxmoxAPI.
Variable cmd : ProxmoxCommand.

(** Lines 32-35: the login identity. *)
Definition user_id (self : ProxmoxClient) : Py.result string :=
  has_at ← Py.contains "@" (_user self);
  if (has_at : bool) then Py.Ret (Py.str (_user self))
  else Py.Ret (Py.str (_user self) +:+ "@" +:+ Py.str (_realm self)).

Definition build_args (self : ProxmoxClient) : Py.result api_args :=
  uid ← user_id self;
  Py.Ret {| arg_host := _host self; arg_port := _port self; arg_user := uid;
            arg_password := _password self; arg_verify_ssl := _verify_ssl self;
            arg_timeout := 30 |}.

Definition build_client (self : ProxmoxClient) : Py.result ProxmoxClient :=
  args ← build_args self;
  api ← new_api args;
  Py.Ret {| _host := _host self; _port := _port self; _user := _user self;
            _realm := _realm self; _password := _password self;
            _verify_ssl := _verify_ssl self; _proxmox := Some api |}.

(** [ProxmoxClient.__init__] *)
Definition init (host port user realm password verify_ssl : Py.value)
  : Py.result ProxmoxClient :=
  build_client {| _host := host; _port := port; _user := user; _realm := realm;
                  _password := password; _verify_ssl := verify_ssl;
                  _proxmox := None |}.

(** [self._proxmox]: an [AttributeError] if it was never assigned. *)
Definition proxmox (self : ProxmoxClient) : Py.result ProxmoxAPI :=
  match _proxmox self with
  | Some api => Py.Ret api
  | None => Py.Raise (Py.OtherException "AttributeError"
                        "'ProxmoxClient' object has no attribute '_proxmox'")
  end.

(** [try: ... except ResourceException as ex: raise ProxmoxException(ex.content)] *)
Definition convert_resource_exception {A} (r : Py.result A) : Py.result A :=
  match r with
  | Py.Ret a => Py.Ret a
  | Py.Raise (Py.ResourceException _ content) => Py.Raise (Py.ProxmoxException content)
  | Py.Raise e => Py.Raise e
  end.

Definition px_get (self : ProxmoxClient) (command : string) : Py.result Py.value :=
  convert_resource_exception (api ← proxmox self; api_get api command).

Definition px_post (self : ProxmoxClient) (command : string) : Py.result Py.value :=
  convert_resource_exception (api ← proxmox self; api_post api command).

Definition status_path (node type id : Py.value) (command : string) : string :=
  "nodes/" +:+ Py.str node +:+ "/" +:+ Py.str type +:+ "/" +:+ Py.str id
  +:+ "/status/" +:+ command.

Definition start_vm (self : ProxmoxClient) (node type id : Py.value) : Py.result Py.value :=
  _ ← px_post self (status_path node type id (START cmd));
  Py.Ret Py.PyNone.

Definition stop_vm (self : ProxmoxClient) (node type id : Py.value) : Py.result Py.value :=
  _ ← px_post self (status_path node type id (SHUTDOWN cmd));
  Py.Ret Py.PyNone.

Definition get_status (self : ProxmoxClient) (node type id : Py.value) : Py.result Py.value :=
  px_get self (status_path node type id (CURRENT cmd)).

End Client.

End Px.


(* ===================================================================== *)
(** * Data model of the engine (specification, section 3)                *)
(* ===================================================================== *)

Module Model.

Inductive TargetKind : Type := Container | VirtualMachine.

Record LaunchTarget : Type := {
  identifier : Z;
  kind : TargetKind;
  node : string
}.

Inductive ExecutionOutcome : Type :=
| Started
| AlreadyRunning
| Failed (reason : string).

#[global] Instance TargetKind_eq_dec : EqDecision TargetKind.
Proof. solve_decision. Defined.
#[global] Instance LaunchTarget_eq_dec : EqDecision LaunchTarget.
Proof. solve_decision. Defined.
#[global] Instance ExecutionOutcome_eq_dec : EqDecision ExecutionOutcome.
Proof. solve_decision. Defined.

Definition is_failed (o : ExecutionOutcome) : bool :=
  match o with Failed _ => true | _ => false end.

Definition is_started (o : ExecutionOutcome) : bool :=
  match o with Started => true | _ => false end.

Definition is_skipped (o : ExecutionOutcome) : bool :=
  match o with AlreadyRunning => true | _ => false end.

(** RunSummary: the outcomes in processing order and the optional fatal
    error; the three counts are read off the outcomes. *)
Record RunSummary : Type := {
  outcomes : list ExecutionOutcome;
  fatal_error : option string
}.

Definition count_where (p : ExecutionOutcome → bool) (s : RunSummary) : nat :=
  length (filter (λ o, p o = true) (outcomes s)).

Definition started_count : RunSummary → nat := count_where is_started.
Definition skipped_count : RunSummary → nat := count_where is_skipped.
Definition failed_count : RunSummary → nat := count_where is_failed.

End Model.

(* ===================================================================== *)
(** * Notification manager (pxpilot.notifications)                       *)
(* ===================================================================== *)

Module Notifications.
Import Model.

(** One entry of the notifier configuration: a channel name with its
    settings dictionary. *)
Record NotifierConfig : Type := {
  channel_name : string;
  channel_settings : gmap string Py.value
}.

Inductive MessageSection : Type :=
| RunHeader (start_time : Z)
| OutcomeLine (o : ExecutionOutcome)
| FatalSection (message : string).

(** A notification channel: the settings it was built from and its
    transport, the [send] capability. *)
Record NotificationChannel : Type := {
  chan_name : string;
  chan_settings : gmap string Py.value;
  chan_send : list MessageSection → Py.result unit
}.

(** [buildMessage()]: a fresh accumulator seeded with the run header. *)
Definition build_message (now : Z) (ch : NotificationChannel) : list MessageSection :=
  [RunHeader now].

(** The manager: the active channels in registration order, and the message
    of each channel, keyed by the channel's position in that list (the
    channel object's identity). *)
Record NotificationManager : Type := {
  _notifiers : list NotificationChannel;
  _message_to_notifier_map : gmap nat (list MessageSection)
}.

(** The settings set [disabled: true]. *)
Definition is_disabled (settings : gmap string Py.value) : bool :=
  match settings !! "disabled" with
  | Some (Py.PyBool true) => true
  | _ => false
  end.

Section Manager.
(** The registry: channel name to channel constructor.  A constructor may
    fail on its settings (specification, section 4.5). *)
Variable registry : gmap string (gmap string Py.value → Py.result NotificationChannel).
(** The clock read for the run header. *)
Variable now : Z.

Definition is_recognized (c : NotifierConfig) : bool :=
  bool_decide (is_Some (registry !! channel_name c)).

(** The entry is [disabled] or its name is not in the registry. *)
Definition is_dropped (c : NotifierConfig) : bool :=
  is_disabled (channel_settings c) || negb (is_recognized c).

Definition add_channel (m : NotificationManager) (ch : NotificationChannel)
  : NotificationManager :=
  {| _notifiers := _notifiers m ++ [ch];
     _message_to_notifier_map :=
       <[length (_notifiers m) := build_message now ch]> (_message_to_notifier_map m) |}.

(** Modelled from the spec: the constructor of [NotificationManager], whose
    source file is missing (only its test is present).  Section 4.4: one
    channel per entry whose name is in the registry and whose settings do
    not set [disabled: true]; unknown names are ignored; the message of
    every active channel is created eagerly and paired with the channel. *)
Fixpoint init_entries (config : list NotifierConfig) (m : NotificationManager)
  : Py.result NotificationManager :=
  match config with
  | [] => Py.Ret m
  | c :: rest =>
      match registry !! channel_name c with
      | Some construct =>
          if is_disabled (channel_settings c) then init_entries rest m
          else ch ← construct (channel_settings c);
               init_entries rest (add_channel m ch)
      | None => init_entries rest m
      end
  end.

Definition new (config : list NotifierConfig) : Py.result NotificationManager :=
  init_entries config {| _notifiers := []; _message_to_notifier_map := ∅ |}.

(** Every key of the message map is the position of a registered channel. *)
Definition keys_bounded (m : NotificationManager) : Prop :=
  ∀ i, is_Some (_message_to_notifier_map m !! i) → i < length (_notifiers m).

(** The number of entries that give a channel, and of those that do not. *)
Definition kept (config : list NotifierConfig) : nat :=
  length (filter (λ c, is_dropped c = false) config).

Definition dropped (config : list NotifierConfig) : nat :=
  length (filter (λ c, is_dropped c = true) config).

End Manager.

(** Modelled from the spec: [notify(outcome)] appends one line to every
    active channel's message. *)
Definition notify (m : NotificationManager) (o : ExecutionOutcome) : NotificationManager :=
  {| _notifiers := _notifiers m;
     _message_to_notifier_map := (λ msg, msg ++ [OutcomeLine o]) <$> _message_to_notifier_map m |}.

(** Modelled from the spec: [fatal(message)] appends a fatal section to every
    active channel's message. *)
Definition fatal (m : NotificationManager) (message : string) : NotificationManager :=
  {| _notifiers := _notifiers m;
     _message_to_notifier_map := (λ msg, msg ++ [FatalSection message]) <$> _message_to_notifier_map m |}.

(** Modelled from the spec: [send()] delivers every channel's message in
    registration order; the result of each delivery is kept, none stops the
    others. *)
Definition send (m : NotificationManager) : list (string * Py.result unit) :=
  imap (λ i ch, (chan_name ch,
                 chan_send ch (default [] (_message_to_notifier_map m !! i))))
       (_notifiers m).

End Notifications.


(* ===================================================================== *)
(** * Target starter and executor (pxpilot.vm_management)                *)
(* ===================================================================== *)

Module VmManagement.
Import Model.

(** The remote client interface of section 6. *)
Record RemoteClient : Type := {
  getStatus : string → TargetKind → Z → Py.result string;
  start : string → TargetKind → Z → Py.result unit
}.

(** The readiness capability of section 4.1. *)
Record ReadinessValidator : Type := {
  isReady : LaunchTarget → bool
}.

(** Calls issued to the remote client, as a stub would count them. *)
Inductive RemoteCall : Type :=
| GetStatusCall (t : LaunchTarget)
| StartCall (t : LaunchTarget).

#[global] Instance RemoteCall_eq_dec : EqDecision RemoteCall.
Proof. solve_decision. Defined.

Definition is_start_call (c : RemoteCall) : bool :=
  match c with StartCall _ => true | GetStatusCall _ => false end.

Definition is_status_call (c : RemoteCall) : bool :=
  match c with GetStatusCall _ => true | StartCall _ => false end.

Definition start_calls (log : list RemoteCall) : nat :=
  length (filter (λ c, is_start_call c = true) log).

Definition status_calls (log : list RemoteCall) : nat :=
  length (filter (λ c, is_status_call c = true) log).

(** Computations that talk to the remote client thread the log of the calls
    issued so far. *)
Definition Remote (A : Type) : Type := list RemoteCall → A * list RemoteCall.

#[global] Instance Remote_ret : MRet Remote := λ A a log, (a, log).
#[global] Instance Remote_bind : MBind Remote :=
  λ A B k m log, let '(a, log') := m log in k a log'.

Definition record_call (c : RemoteCall) : Remote unit := λ log, ((), log ++ [c]).

Inductive RunState : Type := NOT_STARTED | RUNNING | COMPLETED.

#[global] Instance RunState_eq_dec : EqDecision RunState.
Proof. solve_decision. Defined.

Record Executor : Type := {
  state : RunState;
  summary : RunSummary;
  notification_manager : option Notifications.NotificationManager
}.

Definition new_executor (nm : option Notifications.NotificationManager) : Executor :=
  {| state := NOT_STARTED;
     summary := {| outcomes := []; fatal_error := None |};
     notification_manager := nm |}.

Definition set_state (s : RunState) (ex : Executor) : Executor :=
  {| state := s; summary := summary ex; notification_manager := notification_manager ex |}.

Definition append_outcome (o : ExecutionOutcome) (ex : Executor) : Executor :=
  {| state := state ex;
     summary := {| outcomes := outcomes (summary ex) ++ [o];
                   fatal_error := fatal_error (summary ex) |};
     notification_manager := (λ m, Notifications.notify m o) <$> notification_manager ex |}.

Section Engine.
Variable remote : RemoteClient.
Variable validator : ReadinessValidator.
(** Whether a status string indicates a running target. *)
Variable indicates_running : string → bool.

Definition query_status (t : LaunchTarget) : Remote (Py.result string) :=
  _ ← record_call (GetStatusCall t);
  mret (getStatus remote (node t) (kind t) (identifier t)).

Definition issue_start (t : LaunchTarget) : Remote (Py.result unit) :=
  _ ← record_call (StartCall t);
  mret (start remote (node t) (kind t) (identifier t)).

(** Modelled from the spec: the Target Starter's [start(target)], whose
    source file (pxpilot.vm_management.vm_starter) is missing.  Section 4.2:
    query the status; already running is a no-op; a node that is not ready
    fails without a start command; otherwise issue the start command, and
    turn any error of a remote call into [failed(message)]. *)
Definition start_target (t : LaunchTarget) : Remote ExecutionOutcome :=
  status ← query_status t;
  match status with
  | Py.Raise e => mret (Failed (Py.exn_str e))
  | Py.Ret s =>
      if indicates_running s then mret AlreadyRunning
      else if isReady validator t then
        r ← issue_start t;
        mret (match r with
              | Py.Ret _ => Started
              | Py.Raise e => Failed (Py.exn_str e)
              end)
      else mret (Failed "node not ready")
  end.

(** One iteration of the executor's loop: start the target, append the
    outcome to the summary, forward it to the manager if there is one. *)
Definition process_target (ex : Executor) (t : LaunchTarget) : Remote Executor :=
  o ← start_target t;
  mret (append_outcome o ex).

Fixpoint run_loop (targets : list LaunchTarget) (ex : Executor) : Remote Executor :=
  match targets with
  | [] => mret ex
  | t :: rest => ex' ← process_target ex t; run_loop rest ex'
  end.

(** Modelled from the spec: the Executor's [run(targets)], whose source file
    (pxpilot.vm_management.executor) is missing.  Section 4.3: the run goes
    NOT_STARTED, RUNNING, COMPLETED and processes the targets one at a time
    in the configured order.  The final send is left to the caller, where
    pilot.py has it. *)
Definition run (nm : option Notifications.NotificationManager)
    (targets : list LaunchTarget) : Remote Executor :=
  ex ← run_loop targets (set_state RUNNING (new_executor nm));
  mret (set_state COMPLETED ex).

(** The start command is reached for [t] and raises [e]. *)
Definition start_call_raises (t : LaunchTarget) (e : Py.exn) : Prop :=
  ∃ s, getStatus remote (node t) (kind t) (identifier t) = Py.Ret s
       ∧ indicates_running s = false
       ∧ isReady validator t = true
       ∧ start remote (node t) (kind t) (identifier t) = Py.Raise e.

(** The outcome of [t] when it is started on its own, with a fresh stub. *)
Definition outcome_alone (t : LaunchTarget) : ExecutionOutcome :=
  (start_target t []).1.

End Engine.

End VmManagement.


(* ===================================================================== *)
(** * pxpilot/pilot.py                                                   *)
(* ===================================================================== *)

Module Pilot.

Definition CONFIG_FILE : string := "config.yaml".

(** The one field of [VMLaunchSettings] that pilot.py reads. *)
Record VMLaunchSettings : Type := {
  vm_id : Py.value
}.

Record ProxmoxConfig : Type := {
  px_settings : option (gmap string Py.value);
  start_options : option (list VMLaunchSettings)
}.

Record AppConfig : Type := {
  proxmox_config : option ProxmoxConfig;
  app_settings : option (gmap string Py.value);
  notification_settings : option (list Notifications.NotifierConfig)
}.

Inductive LogLevel : Type := DEBUG | INFO | ERROR.

(** What the entry point does to the outside: logger calls, console output,
    and the two calls it makes on the notification manager.  [Collaborator]
    stands for an effect of a collaborator whose code is elsewhere. *)
Inductive Event : Type :=
| Log (level : LogLevel) (message : string)
| Print (line : string)
| NmFatal (message : string)
| NmSend
| Collaborator (what : string).

#[global] Instance LogLevel_eq_dec : EqDecision LogLevel.
Proof. solve_decision. Defined.
#[global] Instance Event_eq_dec : EqDecision Event.
Proof. solve_decision. Defined.

(** How a call of [main] ends: it returns (None), or an exception leaves it. *)
Inductive Termination : Type :=
| Returned
| Propagated (e : Py.exn).

Definition count_sends (trace : list Event) : nat :=
  length (filter (λ ev, ev = NmSend) trace).

Definition is_fatal_call (ev : Event) : bool :=
  match ev with NmFatal _ => true | _ => false end.

Definition count_fatals (trace : list Event) : nat :=
  length (filter (λ ev, is_fatal_call ev = true) trace).

(** ** validate_vms (lines 160-171) *)

(** The condition of line 167. *)
Definition wrong_vm_id (vm : VMLaunchSettings) : bool :=
  Py.is_none (vm_id vm) || Py.eq_zero (vm_id vm) || negb (Py.isinstance_int (vm_id vm)).

Definition wrong_vm_id_line (vm : VMLaunchSettings) : string :=
  "  (!) Wrong VM id: " +:+ Py.str (vm_id vm).

(** The loop of lines 166-168: the lines it prints, in order. *)
Fixpoint report_vms (starts : list VMLaunchSettings) : list string :=
  match starts with
  | [] => []
  | vm :: rest =>
      (if wrong_vm_id vm then [wrong_vm_id_line vm] else []) ++ report_vms rest
  end.

(** [validate_vms]: the printed lines and the returned flag. *)
Definition validate_vms (starts : list VMLaunchSettings) : list string * bool :=
  let valid := false in
  let out := ["⌜ Start settings validation: starting..."] in
  let out := out ++ ["  Found " +:+ pretty (length starts) +:+ " vm start settings."] in
  let out := out ++ report_vms starts in
  let out := out ++ ["∟ Start settings validation: completed."] in
  (out, valid).


(** The id-format check of the specification: the identifier is a positive
    integer. *)
Definition positive_integer (v : Py.value) : bool :=
  match v with
  | Py.PyInt n => bool_decide (0 < n)%Z
  | _ => false
  end.

(** ** main (lines 20-62) *)

Section Main.
(** Collaborators whose code is not in pilot.py: their object types and the
    calls pilot.py makes on them. *)
Context {Client Validator Starter Exec Manager Registry : Type}.
(** [ConfigManager().load(path)] *)
Variable load : string → Py.result (option AppConfig).
Variable NOTIFIER_TYPES : Registry.
(** [NotificationManager(settings, registry)] *)
Variable NotificationManager :
  list Notifications.NotifierConfig → Registry → Py.result Manager.
(** [ProxmoxClient] applied to the unpacked settings dictionary *)
Variable ProxmoxClient : gmap string Py.value → Py.result Client.
Variable HostValidator : Py.result Validator.
Variable VMStarter : Client → Validator → Py.result Starter.
Variable Executor :
  Client → option (list VMLaunchSettings) → option (gmap string Py.value) →
  Starter → option Manager → bool → Py.result Exec.
(** [executor.start()]: what it does to the outside, and how it ends. *)
Variable Executor_start : Exec → list Event * Py.result unit.

Definition attribute_error (attr : string) : Py.exn :=
  Py.OtherException "AttributeError"
    ("'NoneType' object has no attribute '" +:+ attr +:+ "'").

(** [app_config.proxmox_config.<attr>] *)
Definition proxmox_attr {A} (app_config : AppConfig) (attr : string)
    (get : ProxmoxConfig → A) : Py.result A :=
  match proxmox_config app_config with
  | Some pc => Py.Ret (get pc)
  | None => Py.Raise (attribute_error attr)
  end.

(** Unpacking the settings into keyword arguments: they must be a mapping. *)
Definition unpack_kwargs (settings : option (gmap string Py.value))
  : Py.result (gmap string Py.value) :=
  match settings with
  | Some d => Py.Ret d
  | None => Py.Raise (Py.OtherException "TypeError"
              "pxpilot.pxtool.px.ProxmoxClient() argument after ** must be a mapping, not NoneType")
  end.

(** Lines 20-28. *)
Definition build_executor (app_config : AppConfig) (notification_manager : option Manager)
  : Py.result Exec :=
  settings ← proxmox_attr app_config "px_settings" px_settings;
  kwargs ← unpack_kwargs settings;
  px_client ← ProxmoxClient kwargs;
  host_validator ← HostValidator;
  starter ← VMStarter px_client host_validator;
  options ← proxmox_attr app_config "start_options" start_options;
  Executor px_client options (app_settings app_config) starter notification_manager false.

(** Lines 31-34. *)
Definition build_notification_manager (app_config : AppConfig)
  : Py.result (option Manager) :=
  match notification_settings app_config with
  | Some settings =>
      if bool_decide (0 < length settings)
      then nm ← NotificationManager settings NOTIFIER_TYPES; Py.Ret (Some nm)
      else Py.Ret None
  | None => Py.Ret None
  end.

(** Lines 47-48, the body of the [try]. *)
Definition try_body (app_config : AppConfig) (notification_manager : option Manager)
  : list Event * Py.result unit :=
  match build_executor app_config notification_manager with
  | Py.Ret executor => Executor_start executor
  | Py.Raise ex => ([], Py.Raise ex)
  end.

(** Lines 49-52, the [except Exception as ex] handler. *)
Definition handler (notification_manager : option Manager) (ex : Py.exn) : list Event :=
  (if notification_manager is Some _ then [NmFatal (Py.exn_str ex)] else [])
  ++ [Log ERROR (Py.exn_str ex)].

(** Lines 54-57. *)
Definition flush (notification_manager : option Manager) : list Event :=
  if notification_manager is Some _
  then [Log DEBUG "Send notifications..."; NmSend]
  else [].

(** Lines 44-57, the branch taken when the configuration was loaded: the
    events from line 44 on and, when an exception leaves the branch, that
    exception. *)
Definition run_loaded (app_config : AppConfig) : list Event * option Py.exn :=
  match build_notification_manager app_config with
  | Py.Raise ex => ([], Some ex)
  | Py.Ret notification_manager =>
      let '(during, r) := try_body app_config notification_manager in
      match r with
      | Py.Ret _ => (during ++ flush notification_manager, None)
      | Py.Raise ex =>
          if Py.is_Exception ex
          then (during ++ handler notification_manager ex ++ flush notification_manager, None)
          else (during, Some ex)
      end
  end.

(** [main()]: the trace of its effects and how it ends. *)
Definition main : list Event * Termination :=
  let starting := [Log INFO "pilot is starting"] in
  match load CONFIG_FILE with
  | Py.Raise ex => (starting, Propagated ex)
  | Py.Ret (Some app_config) =>
      match run_loaded app_config with
      | (events, None) =>
          (starting ++ [Log INFO "Config loaded."] ++ events
             ++ [Log INFO "pilot completed."], Returned)
      | (events, Some ex) =>
          (starting ++ [Log INFO "Config loaded."] ++ events, Propagated ex)
      end
  | Py.Ret None =>
      (starting ++ [Print "Config not loaded."; Log INFO "pilot completed."], Returned)
  end.

End Main.

End Pilot.

(* ===================================================================== *)
(** * Built-ins used by the configuration checks                         *)
(* ===================================================================== *)

Module Builtins.

(** Truthiness, as [if v] and [v and w] test it. *)
Definition truthy (v : Py.value) : bool :=
  match v with
  | Py.PyNone => false
  | Py.PyBool b => b
  | Py.PyInt n => negb (bool_decide (n = 0%Z))
  | Py.PyFloat _ z => negb z
  | Py.PyStr s => negb (bool_decide (s = ""))
  end.

Definition no_len (type_name : string) : Py.exn :=
  Py.OtherException "TypeError" ("object of type '" +:+ type_name +:+ "' has no len()").

(** [len(v)]: defined on strings only among the scalar values. *)
Definition len (v : Py.value) : Py.result nat :=
  match v with
  | Py.PyStr s => Py.Ret (String.length s)
  | Py.PyNone => Py.Raise (no_len "NoneType")
  | Py.PyBool _ => Py.Raise (no_len "bool")
  | Py.PyInt _ => Py.Raise (no_len "int")
  | Py.PyFloat _ _ => Py.Raise (no_len "float")
  end.

(** [len(v) > 0] *)
Definition nonempty (v : Py.value) : Py.result bool :=
  n ← len v; Py.Ret (bool_decide (0 < n)).

(** [a and b] on two comparisons: [b] is evaluated only when [a] holds. *)
Definition and_then (a b : Py.result bool) : Py.result bool :=
  x ← a; if (x : bool) then b else Py.Ret false.

(** [d.get(key, None)] *)
Definition get (d : gmap string Py.value) (key : string) : Py.value :=
  default Py.PyNone (d !! key).

End Builtins.

(* ===================================================================== *)
(** * pxpilot/pilot.py: validate_config and its helpers                  *)
(* ===================================================================== *)

Module Validation.
Import Pilot.

(** A computation that prints: the lines printed so far, and the value
    returned or the exception raised. *)
Definition Out (A : Type) : Type := list string * Py.result A.

#[global] Instance Out_ret : MRet Out := λ A a, ([], Py.Ret a).
#[global] Instance Out_bind : MBind Out := λ A B k m,
  match m with
  | (out, Py.Ret a) => let '(out', r) := k a in (out ++ out', r)
  | (out, Py.Raise ex) => (out, Py.Raise ex)
  end.

Definition print (line : string) : Out unit := ([line], Py.Ret ()).

Definition lift {A} (r : Py.result A) : Out A := ([], r).

(** [try: body except Exception as ex: handler(ex)] *)
Definition try_except {A} (body : Out A) (handler : Py.exn → Out A) : Out A :=
  match body with
  | (out, Py.Raise ex) =>
      if Py.is_Exception ex
      then let '(out', r) := handler ex in (out ++ out', r)
      else (out, Py.Raise ex)
  | (out, Py.Ret a) => (out, Py.Ret a)
  end.

(** [px_settings.get(key, None)]; [px_settings] itself may be None. *)
Definition settings_get (px_settings : option (gmap string Py.value)) (key : string)
  : Py.result Py.value :=
  match px_settings with
  | Some d => Py.Ret (Builtins.get d key)
  | None => Py.Raise (Pilot.attribute_error "get")
  end.

(** Lines 113-122: the flag and the status of the host entry. *)
Definition host_check (host : Py.value) : Py.result (bool * string) :=
  if Py.is_none host then Py.Ret (false, "Missing")
  else ok ← Builtins.nonempty host;
       if (ok : bool) then Py.Ret (true, "Ok") else Py.Ret (false, "Empty").

(** Lines 132-147: the flag and the status of the credentials. *)
Definition auth_check (token token_value user password realm : Py.value)
  : Py.result (bool * string) :=
  if Builtins.truthy token && Builtins.truthy token_value then
    ok ← Builtins.and_then (Builtins.nonempty token) (Builtins.nonempty token_value);
    if (ok : bool) then Py.Ret (true, "Ok (Token-based)")
    else Py.Ret (false, "Invalid Token or Token Value")
  else if Builtins.truthy user && Builtins.truthy password && Builtins.truthy realm then
    ok ← Builtins.and_then (Builtins.nonempty user)
           (Builtins.and_then (Builtins.nonempty password) (Builtins.nonempty realm));
    if (ok : bool) then Py.Ret (true, "Ok (User-password-based)")
    else Py.Ret (false, "Invalid User, Password, or Realm")
  else Py.Ret (false, "Missing Authentication Information").

(** [validate_vms(starts)] when [starts] may be None: the header is printed
    before [len(starts)] is evaluated. *)
Definition validate_vms_call (starts : option (list VMLaunchSettings)) : Out bool :=
  match starts with
  | Some l => ((validate_vms l).1, Py.Ret (validate_vms l).2)
  | None => (["⌜ Start settings validation: starting..."],
             Py.Raise (Builtins.no_len "NoneType"))
  end.

Section Validate.
Context {Client : Type}.
(** [ProxmoxClient] applied to the unpacked settings dictionary *)
Variable ProxmoxClient : gmap string Py.value → Py.result Client.
(** [px_client.get_all_vms()] *)
Variable get_all_vms : Client → Py.result Py.value.
(** [ConfigManager().load(path)] *)
Variable load : string → Py.result (option AppConfig).

(** Lines 98-107. *)
Definition validate_connection (px_settings : option (gmap string Py.value)) : Out bool :=
  _ ← print "  Try to connect to Proxmox...";
  kwargs ← lift (Pilot.unpack_kwargs px_settings);
  px_client ← lift (ProxmoxClient kwargs);
  try_except
    (_ ← lift (get_all_vms px_client);
     _ ← print "    Successfully connected.";
     mret true)
    (λ ex, _ ← print ("    (!) Unable to connect to Proxmox: " +:+ Py.exn_str ex);
           mret false).

(** Lines 110-157. *)
Definition validate_proxmox_config (px_settings : option (gmap string Py.value)) : Out bool :=
  _ ← print "⌜ Proxmox settings validation: starting...";
  host ← lift (settings_get px_settings "host");
  hc ← lift (host_check host);
  _ ← print ("  Proxmox host: " +:+ hc.2);
  token ← lift (settings_get px_settings "token");
  token_value ← lift (settings_get px_settings "token_value");
  user ← lift (settings_get px_settings "user");
  password ← lift (settings_get px_settings "password");
  realm ← lift (settings_get px_settings "realm");
  ac ← lift (auth_check token token_value user password realm);
  _ ← print ("  Proxmox authentication: " +:+ ac.2);
  let valid := hc.1 && ac.1 in
  valid ← (if valid
           then connected ← validate_connection px_settings;
                mret (valid && connected)
           else mret valid);
  _ ← print "∟ Proxmox settings validation: completed.";
  mret valid.

(** [app_config.<attr>] when [app_config] may be None. *)
Definition config_attr {A} (app_config : option AppConfig) (attr : string)
    (get : AppConfig → A) : Py.result A :=
  match app_config with
  | Some c => Py.Ret (get c)
  | None => Py.Raise (Pilot.attribute_error attr)
  end.

(** [x.<attr>] for [x = app_config.proxmox_config], which may be None. *)
Definition section_attr {A} (pc : option ProxmoxConfig) (attr : string)
    (get : ProxmoxConfig → A) : Py.result A :=
  match pc with
  | Some c => Py.Ret (get c)
  | None => Py.Raise (Pilot.attribute_error attr)
  end.

Definition when (b : bool) (line : string) : Out unit :=
  if b then print line else mret ().

(** [x is None or len(x) == 0] for a list [x]. *)
Definition none_or_empty {A} (x : option (list A)) : bool :=
  match x with
  | None => true
  | Some l => bool_decide (length l = 0)
  end.

(** Lines 69-93, the body of the [try]. *)
Definition validate_config_body : Out unit :=
  app_config ← lift (load CONFIG_FILE);
  _ ← print "Config loaded.";
  pc ← lift (config_attr app_config "proxmox_config" proxmox_config);
  let access_missing :=
    match pc with
    | None => true
    | Some c => bool_decide (px_settings c = None)
    end in
  _ ← when access_missing "(!) Proxmox access config is missing.";
  aps ← lift (config_attr app_config "app_settings" app_settings);
  _ ← when (bool_decide (aps = None)) "(!) Optional App setting section is missing";
  _ ← match pc with
      | Some c => when (none_or_empty (start_options c))
                    "(!) There is no VM's to start in config"
      | None => mret ()
      end;
  ns ← lift (config_attr app_config "notification_settings" notification_settings);
  _ ← when (none_or_empty ns) "(!) Notification settings are missed";
  settings ← lift (section_attr pc "px_settings" px_settings);
  valid ← validate_proxmox_config settings;
  options ← lift (section_attr pc "start_options" start_options);
  _ ← validate_vms_call options;
  if (valid : bool) then print "Config validated successfully."
  else print "Config validated with errors.".

(** [validate_config()]: what it prints and how it ends. *)
Definition validate_config : list string * Termination :=
  let '(out, r) :=
    (_ ← print ("Start validating '" +:+ CONFIG_FILE +:+ "'...");
     try_except validate_config_body
       (λ ex, print ("(!) Error occurred during reading config: " +:+ Py.exn_str ex)))
  in (out, match r with Py.Ret _ => Returned | Py.Raise ex => Propagated ex end).

End Validate.

(** Lines 72-84 for a configuration that has a proxmox section: the
    findings printed before the settings are validated. *)
Definition findings (app_config : AppConfig) (pc : ProxmoxConfig) : list string :=
  (if bool_decide (px_settings pc = None)
   then ["(!) Proxmox access config is missing."] else [])
  ++ (if bool_decide (app_settings app_config = None)
      then ["(!) Optional App setting section is missing"] else [])
  ++ (if none_or_empty (start_options pc)
      then ["(!) There is no VM's to start in config"] else [])
  ++ (if none_or_empty (notification_settings app_config)
      then ["(!) Notification settings are missed"] else []).

(** Lines 90-93. *)
Definition verdict (valid : bool) : string :=
  if valid then "Config validated successfully." else "Config validated with errors.".

(** Whatever the call raises is an instance of [Exception]. *)
Definition raises_exceptions_only {A} (r : Py.result A) : Prop :=
  ∀ ex, r = Py.Raise ex → Py.is_Exception ex = true.

End Validation.


(* ===================================================================== *)
(** * Scenarios: concrete clients, configurations and batches            *)
(* ===================================================================== *)

Module Scenario.
Import Model.

(** ** px.py *)

Definition commands : Px.ProxmoxCommand :=
  {| Px.START := "start"; Px.SHUTDOWN := "shutdown"; Px.CURRENT := "current" |}.

(** A cluster that cannot be reached: every request dies in the transport. *)
Definition unreachable_api : Px.ProxmoxAPI :=
  {| Px.api_get := λ _, Py.Raise (Py.OtherException "ConnectionError" "Connection refused");
     Px.api_post := λ _, Py.Raise (Py.OtherException "ConnectionError" "Connection refused") |}.

(** A cluster that answers every request with an error response. *)
Definition rejecting_api : Px.ProxmoxAPI :=
  {| Px.api_get := λ _, Py.Raise (Py.ResourceException
                        "500 Internal Server Error: Configuration file does not exist"
                        "Configuration file does not exist");
     Px.api_post := λ _, Py.Raise (Py.ResourceException
                        "500 Internal Server Error: Configuration file does not exist"
                        "Configuration file does not exist") |}.

Definition client_of (user realm : Py.value) (api : option Px.ProxmoxAPI) : Px.ProxmoxClient :=
  {| Px._host := Py.PyStr "pve.local"; Px._port := Py.PyInt 8006;
     Px._user := user; Px._realm := realm;
     Px._password := Py.PyStr "secret"; Px._verify_ssl := Py.PyBool false;
     Px._proxmox := api |}.

Definition root : Py.value := Py.PyStr "root".
Definition root_at_pam : Py.value := Py.PyStr "root@pam".
Definition pve : Py.value := Py.PyStr "pve".

(** ** test_notification_manager.py *)

Definition MockNotifier (config : gmap string Py.value)
  : Py.result Notifications.NotificationChannel :=
  Py.Ret {| Notifications.chan_name := "mock";
            Notifications.chan_settings := config;
            Notifications.chan_send := λ _, Py.Ret () |}.

Definition tg : gmap string Py.value :=
  {[ "token" := Py.PyStr "token_value"; "chat_id" := Py.PyStr "chan_id_value" ]}.

Definition mail : gmap string Py.value :=
  {[ "smtp_server" := Py.PyStr ""; "smtp_port" := Py.PyStr "";
     "smtp_user" := Py.PyStr ""; "smtp_password" := Py.PyStr "";
     "from_email" := Py.PyStr ""; "to_email" := Py.PyStr "" ]}.

(** The fixture [notifier_config]; [disabled] is the fixture's parameter. *)
Definition notifier_config (disabled : bool) : list Notifications.NotifierConfig :=
  [ {| Notifications.channel_name := "telegram"; Notifications.channel_settings := tg |};
    {| Notifications.channel_name := "email";
       Notifications.channel_settings :=
         if disabled then <["disabled" := Py.PyBool true]> mail else mail |} ].

Definition registry_two
  : gmap string (gmap string Py.value → Py.result Notifications.NotificationChannel) :=
  {[ "telegram" := MockNotifier; "email" := MockNotifier ]}.

Definition registry_one
  : gmap string (gmap string Py.value → Py.result Notifications.NotificationChannel) :=
  {[ "telegram" := MockNotifier ]}.

(** The fixtures [notification_manager] and [notification_manager_one]. *)
Definition notification_manager (disabled : bool) :=
  Notifications.new registry_two 0 (notifier_config disabled).

Definition notification_manager_one (disabled : bool) :=
  Notifications.new registry_one 0 (notifier_config disabled).

(** ** A batch of three targets; the start call of the second one raises *)

Definition target (id : Z) : LaunchTarget :=
  {| identifier := id; kind := Container; node := "pve" |}.

Definition batch : list LaunchTarget := [target 101; target 102; target 103].

(** A stub in which every target is stopped and target 102 cannot be started. *)
Definition stub : VmManagement.RemoteClient :=
  {| VmManagement.getStatus := λ _ _ _, Py.Ret "stopped";
     VmManagement.start := λ _ _ id,
       if bool_decide (id = 102%Z)
       then Py.Raise (Py.ProxmoxException "unable to start: no such container")
       else Py.Ret () |}.

(** A stub in which every target is up already; a start command would fail. *)
Definition stub_all_running : VmManagement.RemoteClient :=
  {| VmManagement.getStatus := λ _ _ _, Py.Ret "running";
     VmManagement.start := λ _ _ _, Py.Raise (Py.ProxmoxException "already running") |}.

Definition always_ready : VmManagement.ReadinessValidator :=
  {| VmManagement.isReady := λ _, true |}.

Definition is_running (status : string) : bool := bool_decide (status = "running").

(** ** Runs of the entry point *)

Definition vm (id : Py.value) : Pilot.VMLaunchSettings := {| Pilot.vm_id := id |}.

Definition app_config (notifiers : option (list Notifications.NotifierConfig))
  : Pilot.AppConfig :=
  {| Pilot.proxmox_config :=
       Some {| Pilot.px_settings := Some {[ "host" := Py.PyStr "pve.local" ]};
               Pilot.start_options := Some [vm (Py.PyInt 101)] |};
     Pilot.app_settings := None;
     Pilot.notification_settings := notifiers |}.

(** The client cannot authenticate: construction of the executor fails. *)
Definition rejected_login (_ : gmap string Py.value) : Py.result unit :=
  Py.Raise (Py.OtherException "AuthenticationError"
              "Couldn't authenticate user: root@pam to https://pve.local:8006").

Definition accepted_login (_ : gmap string Py.value) : Py.result unit := Py.Ret ().

(** The user interrupts the start-up of the executor. *)
Definition interrupted_start (_ : unit) : list Pilot.Event * Py.result unit :=
  ([Pilot.Collaborator "start 101"], Py.Raise Py.KeyboardInterrupt).

Definition quiet_start (_ : unit) : list Pilot.Event * Py.result unit :=
  ([Pilot.Collaborator "start 101"], Py.Ret ()).

(** [main()] with the given client constructor and executor start-up; every
    other collaborator succeeds. *)
Definition main_with (notifiers : option (list Notifications.NotifierConfig))
    (client : gmap string Py.value → Py.result unit)
    (start : unit → list Pilot.Event * Py.result unit)
  : list Pilot.Event * Pilot.Termination :=
  Pilot.main (λ _, Py.Ret (Some (app_config notifiers))) ()
    (λ _ _, Py.Ret ()) client (Py.Ret ()) (λ _ _, Py.Ret ())
    (λ _ _ _ _ _ _, Py.Ret ()) start.

End Scenario.

(* ===================================================================== *)
(** * Further scenarios                                                  *)
(* ===================================================================== *)

Module Fixtures.

(** A cluster that answers: every guest runs, every command is accepted. *)
Definition answering_api : Px.ProxmoxAPI :=
  {| Px.api_get := λ _, Py.Ret (Py.PyStr "running");
     Px.api_post := λ _, Py.Ret (Py.PyStr "UPID:pve:00001A2B:start") |}.

(** A notifier section that the manager cannot be built from. *)
Definition broken_manager (_ : list Notifications.NotifierConfig) (_ : unit)
  : Py.result unit :=
  Py.Raise (Py.OtherException "KeyError" "'token'").

(** [main()] over a given configuration; every collaborator succeeds. *)
Definition main_on (config : Pilot.AppConfig) : list Pilot.Event * Pilot.Termination :=
  Pilot.main (λ _, Py.Ret (Some config)) ()
    (λ _ _, Py.Ret ()) Scenario.accepted_login (Py.Ret ()) (λ _ _, Py.Ret ())
    (λ _ _ _ _ _ _, Py.Ret ()) Scenario.quiet_start.

(** A configuration file without the proxmox section. *)
Definition config_without_proxmox : Pilot.AppConfig :=
  {| Pilot.proxmox_config := None;
     Pilot.app_settings := None;
     Pilot.notification_settings := Some (Scenario.notifier_config false) |}.

(** Settings with a host and token credentials. *)
Definition token_settings : gmap string Py.value :=
  {[ "host" := Py.PyStr "pve.local";
     "token" := Py.PyStr "pilot@pve!start";
     "token_value" := Py.PyStr "0000-1111" ]}.

(** Settings with credentials but no host. *)
Definition hostless_settings : gmap string Py.value :=
  {[ "user" := Py.PyStr "root"; "password" := Py.PyStr "secret";
     "realm" := Py.PyStr "pam" ]}.

Definition config_with (settings : option (gmap string Py.value))
    (starts : option (list Pilot.VMLaunchSettings)) : Pilot.AppConfig :=
  {| Pilot.proxmox_config :=
       Some {| Pilot.px_settings := settings; Pilot.start_options := starts |};
     Pilot.app_settings := Some ∅;
     Pilot.notification_settings := Some (Scenario.notifier_config false) |}.

(** The construction of the client ends the process: it raises SystemExit. *)
Definition aborting_login (_ : gmap string Py.value) : Py.result unit :=
  Py.Raise (Py.SystemExit 2).

Definition reachable (_ : unit) : Py.result Py.value := Py.Ret Py.PyNone.

Definition unreachable (_ : unit) : Py.result Py.value :=
  Py.Raise (Py.OtherException "ConnectTimeout" "timed out").

End Fixtures.

(* ===================================================================== *)
(** * Facts about px.py                                                  *)
(* ===================================================================== *)

Module PxFacts.

Lemma is_prefix_spec (p s : string) :
  Py.is_prefix p s = true ↔ ∃ r, s = p +:+ r.
Proof.
  revert s. induction p as [|a p IH]; intros s; simpl.
  - split; [intros _; by exists s | done].
  - destruct s as [|b s].
    + split; [done | intros [r Hr]; discriminate].
    + rewrite andb_true_iff, bool_decide_eq_true, IH. split.
      * intros [-> [r ->]]. by exists r.
      * intros [r Hr]. injection Hr as -> ->. split; [done | by exists r].
Qed.

(** [str_in] is substring containment. *)
Lemma str_in_spec (needle hay : string) :
  Py.str_in needle hay = true ↔ ∃ p s, hay = p +:+ needle +:+ s.
Proof.
  split.
  - induction hay as [|a hay IH]; simpl; rewrite orb_true_iff.
    + intros [H|H]; [|done]. apply is_prefix_spec in H as [r Hr]. by exists "", r.
    + intros [H|H].
      * apply is_prefix_spec in H as [r Hr]. by exists "", r.
      * destruct (IH H) as (p & s & ->). by exists (String a p), s.
  - intros (p & s & ->). induction p as [|a p IH].
    + assert (Py.is_prefix needle ("" +:+ needle +:+ s) = true) as H
        by (apply is_prefix_spec; by exists s).
      simpl in *. destruct needle, s; simpl in *; rewrite ?H; done.
    + simpl. rewrite IH. apply orb_true_r.
Qed.

Lemma convert_resource_exception_spec {A} (r : Py.result A) (e : Py.exn) :
  r = Py.Raise e →
  Px.convert_resource_exception r =
    Py.Raise (match e with
              | Py.ResourceException _ content => Py.ProxmoxException content
              | _ => e
              end).
Proof. intros ->. by destruct e. Qed.

Lemma px_post_raises (self : Px.ProxmoxClient) api command e :
  Px._proxmox self = Some api →
  Px.api_post api command = Py.Raise e →
  Px.px_post self command =
    Py.Raise (match e with
              | Py.ResourceException _ content => Py.ProxmoxException content
              | _ => e
              end).
Proof.
  intros Hapi Hpost. unfold Px.px_post, Px.proxmox. rewrite Hapi.
  apply convert_resource_exception_spec. simpl. exact Hpost.
Qed.

Lemma start_vm_raises cmd (self : Px.ProxmoxClient) api node type id e :
  Px._proxmox self = Some api →
  Px.api_post api (Px.status_path node type id (Px.START cmd)) = Py.Raise e →
  Px.start_vm cmd self node type id =
    Py.Raise (match e with
              | Py.ResourceException _ content => Py.ProxmoxException content
              | _ => e
              end).
Proof.
  intros Hapi Hpost. unfold Px.start_vm.
  by rewrite (px_post_raises self api _ e Hapi Hpost).
Qed.

(** C7, as amended.  When the request behind [start_vm] fails, [start_vm]
    fails too: with [ProxmoxException] carrying the response content when
    the underlying error is proxmoxer's [ResourceException], and with the
    underlying exception itself, unchanged, in every other case. *)
Theorem start_vm_error_conversion cmd (self : Px.ProxmoxClient) api node type id e :
  Px._proxmox self = Some api →
  Px.api_post api (Px.status_path node type id (Px.START cmd)) = Py.Raise e →
  (∀ message content, e = Py.ResourceException message content →
     Px.start_vm cmd self node type id = Py.Raise (Py.ProxmoxException content))
  ∧ (Py.is_ResourceException e = false →
     Px.start_vm cmd self node type id = Py.Raise e).
Proof.
  intros Hapi Hpost. rewrite (start_vm_raises cmd self api node type id e Hapi Hpost).
  split.
  - by intros message content ->.
  - by destruct e.
Qed.

Lemma start_vm_error_conversion_witness :
  Px.start_vm Scenario.commands
    (Scenario.client_of Scenario.root (Py.PyStr "pam") (Some Scenario.rejecting_api))
    Scenario.pve (Py.PyStr "lxc") (Py.PyInt 100)
  = Py.Raise (Py.ProxmoxException "Configuration file does not exist").
Proof.
  exact (proj1 (start_vm_error_conversion Scenario.commands
                  (Scenario.client_of Scenario.root (Py.PyStr "pam")
                     (Some Scenario.rejecting_api))
                  Scenario.rejecting_api Scenario.pve (Py.PyStr "lxc") (Py.PyInt 100)
                  _ eq_refl eq_refl) _ _ eq_refl).
Defined.

(** C7, as stated, fails: a transport error of the start request leaves
    [start_vm] as it is, not as a [ProxmoxException]. *)
Lemma start_vm_transport_error_escapes :
  Px.start_vm Scenario.commands
    (Scenario.client_of Scenario.root (Py.PyStr "pam") (Some Scenario.unreachable_api))
    Scenario.pve (Py.PyStr "lxc") (Py.PyInt 100)
  = Py.Raise (Py.OtherException "ConnectionError" "Connection refused")
  ∧ Py.is_ProxmoxException (Py.OtherException "ConnectionError" "Connection refused") = false.
Proof. split; reflexivity. Qed.

Example start_vm_path :
  Px.status_path Scenario.pve (Py.PyStr "lxc") (Py.PyInt 100) (Px.START Scenario.commands)
  = "nodes/pve/lxc/100/status/start".
Proof. reflexivity. Qed.

Lemma user_id_str (self : Px.ProxmoxClient) (user : string) :
  Px._user self = Py.PyStr user →
  Px.user_id self =
    Py.Ret (if Py.str_in "@" user then user
            else user +:+ "@" +:+ Py.str (Px._realm self)).
Proof.
  intros Huser. unfold Px.user_id. rewrite Huser. simpl.
  by destruct (Py.str_in "@" user).
Qed.

(** C10.  [build_client] hands [proxmoxer.ProxmoxAPI] a login identity that
    is the user string itself, whatever the realm, when that string contains
    an '@', and [user@realm] only when it contains none. *)
Theorem build_client_login_identity
    (new_api : Px.api_args → Py.result Px.ProxmoxAPI)
    (self : Px.ProxmoxClient) (user : string) :
  Px._user self = Py.PyStr user →
  ∃ uid,
    Px.build_args self =
      Py.Ret (Px.ApiArgs (Px._host self) (Px._port self) uid
                (Px._password self) (Px._verify_ssl self) 30)
    ∧ Px.build_client new_api self =
        Py.bind (new_api (Px.ApiArgs (Px._host self) (Px._port self) uid
                            (Px._password self) (Px._verify_ssl self) 30))
          (λ api, Py.Ret {| Px._host := Px._host self; Px._port := Px._port self;
                            Px._user := Px._user self; Px._realm := Px._realm self;
                            Px._password := Px._password self;
                            Px._verify_ssl := Px._verify_ssl self;
                            Px._proxmox := Some api |})
    ∧ ((∃ p s, user = p +:+ "@" +:+ s) → uid = user)
    ∧ ((¬ ∃ p s, user = p +:+ "@" +:+ s) →
         uid = user +:+ "@" +:+ Py.str (Px._realm self)).
Proof.
  intros Huser.
  exists (if Py.str_in "@" user then user else user +:+ "@" +:+ Py.str (Px._realm self)).
  assert (Px.build_args self =
      Py.Ret (Px.ApiArgs (Px._host self) (Px._port self)
                (if Py.str_in "@" user then user
                 else user +:+ "@" +:+ Py.str (Px._realm self))
                (Px._password self) (Px._verify_ssl self) 30)) as Hargs.
  { unfold Px.build_args. by rewrite (user_id_str self user Huser). }
  split; [exact Hargs|]. split.
  - unfold Px.build_client. by rewrite Hargs.
  - split.
    + intros Hat. apply str_in_spec in Hat. by rewrite Hat.
    + intros Hno. destruct (Py.str_in "@" user) eqn:Hin; [|done].
      apply str_in_spec in Hin. contradiction.
Qed.

Lemma build_client_login_identity_witness :
  (∃ uid,
    Px.build_args (Scenario.client_of Scenario.root_at_pam (Py.PyStr "pve") None) =
      Py.Ret (Px.ApiArgs (Py.PyStr "pve.local") (Py.PyInt 8006) uid
                (Py.PyStr "secret") (Py.PyBool false) 30)
    ∧ uid = "root@pam")
  ∧ Px.build_args (Scenario.client_of Scenario.root (Py.PyStr "pam") None) =
      Py.Ret (Px.ApiArgs (Py.PyStr "pve.local") (Py.PyInt 8006) "root@pam"
                (Py.PyStr "secret") (Py.PyBool false) 30).
Proof.
  split.
  - destruct (build_client_login_identity (λ _, Py.Ret Scenario.unreachable_api)
                (Scenario.client_of Scenario.root_at_pam (Py.PyStr "pve") None)
                "root@pam" eq_refl) as (uid & Hargs & _ & Hat & _).
    exists uid. split; [exact Hargs|]. apply Hat. by exists "root", "pam".
  - reflexivity.
Defined.

Example user_id_with_at :
  Px.user_id (Scenario.client_of Scenario.root_at_pam (Py.PyStr "pve") None)
  = Py.Ret "root@pam".
Proof. reflexivity. Qed.

Example user_id_without_at :
  Px.user_id (Scenario.client_of Scenario.root (Py.PyStr "pve") None)
  = Py.Ret "root@pve".
Proof. reflexivity. Qed.

Example user_id_realm_none :
  Px.user_id (Scenario.client_of Scenario.root Py.PyNone None) = Py.Ret "root@None".
Proof. reflexivity. Qed.

End PxFacts.

(* ===================================================================== *)
(** * Facts about the notification manager                               *)
(* ===================================================================== *)

Module NotificationFacts.
Import Notifications.

Section Construction.
Variable registry : gmap string (gmap string Py.value → Py.result NotificationChannel).
Variable now : Z.

Lemma kept_plus_dropped config : kept registry config + dropped registry config = length config.
Proof.
  unfold kept, dropped. induction config as [|c config IH]; [done|].
  rewrite !filter_cons. destruct (is_dropped registry c) eqn:Hc.
  - rewrite decide_False by done. rewrite decide_True by done. simpl. lia.
  - rewrite decide_True by done. rewrite decide_False by done. simpl. lia.
Qed.

Lemma add_channel_keys_bounded m ch :
  keys_bounded m → keys_bounded (add_channel now m ch).
Proof.
  intros Hm i. unfold add_channel. simpl. rewrite length_app. simpl.
  destruct (decide (i = length (_notifiers m))) as [->|Hne]; [lia|].
  rewrite lookup_insert_ne by done. intros Hi. specialize (Hm i Hi). lia.
Qed.

Lemma add_channel_size m ch :
  keys_bounded m →
  size (_message_to_notifier_map (add_channel now m ch))
  = S (size (_message_to_notifier_map m)).
Proof.
  intros Hm. unfold add_channel. simpl. apply map_size_insert_None.
  destruct (_message_to_notifier_map m !! length (_notifiers m)) eqn:Hl; [|done].
  assert (length (_notifiers m) < length (_notifiers m)); [|lia].
  apply Hm. by rewrite Hl.
Qed.

(** The loop adds one channel and one message per kept entry. *)
Lemma init_entries_counts config : ∀ m m',
  init_entries registry now config m = Py.Ret m' →
  keys_bounded m →
  keys_bounded m'
  ∧ length (_notifiers m') = length (_notifiers m) + kept registry config
  ∧ size (_message_to_notifier_map m') = size (_message_to_notifier_map m) + kept registry config.
Proof.
  unfold kept. induction config as [|c config IH]; intros m m' Hinit Hm.
  - simpl in Hinit. injection Hinit as <-. simpl. repeat split; [done|lia|lia].
  - simpl in Hinit. rewrite filter_cons.
    destruct (registry !! channel_name c) as [construct|] eqn:Hreg.
    + assert (is_recognized registry c = true) as Hrec.
      { unfold is_recognized. apply bool_decide_eq_true_2. rewrite Hreg. eauto. }
      destruct (is_disabled (channel_settings c)) eqn:Hdis.
      * assert (is_dropped registry c = true) as Hd
          by (unfold is_dropped; by rewrite Hdis).
        rewrite decide_False by (rewrite Hd; done). by apply IH.
      * assert (is_dropped registry c = false) as Hd
          by (unfold is_dropped; by rewrite Hdis, Hrec).
        rewrite decide_True by done.
        destruct (construct (channel_settings c)) as [ch|e] eqn:Hch; [|done].
        simpl in Hinit.
        destruct (IH _ _ Hinit (add_channel_keys_bounded m ch Hm)) as (Hb & Hl & Hs).
        split; [done|]. rewrite Hl, Hs, add_channel_size by done.
        unfold add_channel; simpl. rewrite length_app. simpl. lia.
    + assert (is_dropped registry c = true) as Hd.
      { unfold is_dropped, is_recognized. rewrite Hreg.
        rewrite bool_decide_eq_false_2 by (intros [? ?]; done). apply orb_true_r. }
      rewrite decide_False by (rewrite Hd; done). by apply IH.
Qed.

End Construction.

(** C4.  A manager built from N entries of which k are disabled or have a
    name that the registry does not know has N - k active channels and
    N - k channel-to-message pairs. *)
Theorem manager_has_one_channel_per_kept_entry
    (registry : gmap string (gmap string Py.value → Py.result NotificationChannel))
    (now : Z) (config : list NotifierConfig) (m : NotificationManager) :
  new registry now config = Py.Ret m →
  length (_notifiers m)
    = length config - length (filter (λ c, is_dropped registry c = true) config)
  ∧ size (_message_to_notifier_map m)
    = length config - length (filter (λ c, is_dropped registry c = true) config).
Proof.
  intros Hnew. unfold new in Hnew.
  destruct (init_entries_counts registry now config _ _ Hnew) as (_ & Hl & Hs).
  { intros i [x Hx]. simpl in Hx. by rewrite lookup_empty in Hx. }
  simpl in Hl, Hs. rewrite map_size_empty in Hs.
  pose proof (kept_plus_dropped registry config) as Hsum. unfold dropped in Hsum.
  lia.
Qed.

(** The scenario of section 8: telegram enabled, email disabled, both
    registered. *)
Lemma manager_has_one_channel_per_kept_entry_witness :
  ∃ m, Scenario.notification_manager true = Py.Ret m
       ∧ length (_notifiers m) = 1
       ∧ size (_message_to_notifier_map m) = 1.
Proof.
  eexists. split; [reflexivity|].
  exact (manager_has_one_channel_per_kept_entry Scenario.registry_two 0
           (Scenario.notifier_config true) _ eq_refl).
Defined.

(** The three tests of test_notification_manager.py. *)
Example test_init :
  ∃ m, Scenario.notification_manager false = Py.Ret m
       ∧ length (_notifiers m) = 2 ∧ size (_message_to_notifier_map m) = 2.
Proof. eexists. split; [reflexivity|]. split; reflexivity. Qed.

Example test_init_disabled :
  ∃ m, Scenario.notification_manager true = Py.Ret m
       ∧ length (_notifiers m) = 1 ∧ size (_message_to_notifier_map m) = 1.
Proof. eexists. split; [reflexivity|]. split; reflexivity. Qed.

Example test_asa :
  ∃ m, Scenario.notification_manager_one false = Py.Ret m
       ∧ length (_notifiers m) = 1 ∧ size (_message_to_notifier_map m) = 1.
Proof. eexists. split; [reflexivity|]. split; reflexivity. Qed.

(** A constructor that fails makes the construction of the manager fail. *)
Lemma new_fails_with_channel
    (registry : gmap string (gmap string Py.value → Py.result NotificationChannel))
    (now : Z) c rest construct e :
  registry !! channel_name c = Some construct →
  is_disabled (channel_settings c) = false →
  construct (channel_settings c) = Py.Raise e →
  new registry now (c :: rest) = Py.Raise e.
Proof. intros Hreg Hdis Hc. unfold new. simpl. by rewrite Hreg, Hdis, Hc. Qed.

Lemma notify_keeps_counts m o :
  length (_notifiers (notify m o)) = length (_notifiers m)
  ∧ size (_message_to_notifier_map (notify m o)) = size (_message_to_notifier_map m).
Proof. split; [done|]. apply map_size_fmap. Qed.

Lemma send_one_delivery_per_channel m :
  length (send m) = length (_notifiers m).
Proof. apply length_imap. Qed.

End NotificationFacts.

(* ===================================================================== *)
(** * Facts about the target starter and the executor                    *)
(* ===================================================================== *)

Module EngineFacts.
Import Model VmManagement.

Section Engine.
Variable remote : RemoteClient.
Variable validator : ReadinessValidator.
Variable indicates_running : string → bool.

#[local] Abbreviation start_target := (start_target remote validator indicates_running).
#[local] Abbreviation outcome_alone := (outcome_alone remote validator indicates_running).
#[local] Abbreviation run_loop := (run_loop remote validator indicates_running).
#[local] Abbreviation run := (run remote validator indicates_running).

Lemma start_calls_app log1 log2 :
  start_calls (log1 ++ log2) = start_calls log1 + start_calls log2.
Proof. unfold start_calls. by rewrite filter_app, length_app. Qed.

Lemma status_calls_app log1 log2 :
  status_calls (log1 ++ log2) = status_calls log1 + status_calls log2.
Proof. unfold status_calls. by rewrite filter_app, length_app. Qed.

(** The starter only appends to the log, and what it returns and appends does
    not depend on the calls made before. *)
Lemma start_target_frame t log :
  start_target t log = (outcome_alone t, log ++ (start_target t []).2).
Proof.
  unfold VmManagement.outcome_alone, VmManagement.start_target,
    query_status, issue_start, record_call, mbind, mret, Remote_bind, Remote_ret.
  simpl.
  destruct (getStatus remote (node t) (kind t) (identifier t)) as [s|e]; [|done].
  destruct (indicates_running s); [done|].
  destruct (isReady validator t); [|done].
  simpl. by rewrite <- app_assoc.
Qed.

(** Exactly one status query, and at most one start command, per call. *)
Lemma start_target_calls t :
  (status_calls (start_target t []).2 = 1 ∧ start_calls (start_target t []).2 ≤ 1)%nat.
Proof.
  unfold VmManagement.start_target, query_status, issue_start, record_call,
    mbind, mret, Remote_bind, Remote_ret. simpl.
  destruct (getStatus remote (node t) (kind t) (identifier t)) as [s|e];
    [|by compute; lia].
  destruct (indicates_running s); [by compute; lia|].
  destruct (isReady validator t); by compute; lia.
Qed.

Lemma start_target_raising t e :
  start_call_raises remote validator indicates_running t e →
  outcome_alone t = Failed (Py.exn_str e).
Proof.
  intros (s & Hs & Hrun & Hready & Hstart).
  unfold VmManagement.outcome_alone, VmManagement.start_target,
    query_status, issue_start, record_call, mbind, mret, Remote_bind, Remote_ret.
  simpl. by rewrite Hs, Hrun, Hready, Hstart.
Qed.

Lemma run_loop_cons t targets ex log :
  run_loop (t :: targets) ex log
  = run_loop targets (append_outcome (outcome_alone t) ex)
      (log ++ (start_target t []).2).
Proof.
  simpl. unfold mbind, Remote_bind, process_target.
  unfold mbind, Remote_bind. by rewrite start_target_frame.
Qed.

(** The loop keeps the state, appends one outcome per target, in order, each
    the outcome that the target has on its own, and queries every target. *)
Lemma run_loop_spec targets : ∀ ex log,
  state (run_loop targets ex log).1 = state ex
  ∧ outcomes (summary (run_loop targets ex log).1)
    = outcomes (summary ex) ++ map outcome_alone targets
  ∧ status_calls (run_loop targets ex log).2 = status_calls log + length targets
  ∧ ∃ more, (run_loop targets ex log).2 = log ++ more.
Proof.
  induction targets as [|t targets IH]; intros ex log.
  - simpl. unfold mret, Remote_ret. simpl. rewrite app_nil_r.
    repeat split; [lia|]. exists []. by rewrite app_nil_r.
  - rewrite run_loop_cons.
    destruct (IH (append_outcome (outcome_alone t) ex)
                 (log ++ (start_target t []).2)) as (Hst & Hout & Hcalls & more & Hlog).
    rewrite Hst, Hout, Hcalls. simpl. rewrite <- app_assoc. simpl.
    repeat split.
    + rewrite status_calls_app. destruct (start_target_calls t) as [-> _]. lia.
    + exists ((start_target t []).2 ++ more). rewrite Hlog. by rewrite app_assoc.
Qed.

Lemma run_spec nm targets log :
  state (run nm targets log).1 = COMPLETED
  ∧ outcomes (summary (run nm targets log).1) = map outcome_alone targets
  ∧ status_calls (run nm targets log).2 = status_calls log + length targets.
Proof.
  unfold VmManagement.run, mbind, Remote_bind.
  destruct (run_loop_spec targets (set_state RUNNING (new_executor nm)) log)
    as (_ & Hout & Hcalls & _).
  destruct (run_loop targets (set_state RUNNING (new_executor nm)) log) as [ex log'].
  unfold mret, Remote_ret. simpl in *. by rewrite Hout, Hcalls.
Qed.

End Engine.

(** C1.  Failure isolation.  When the start call of the target at position
    [i] raises, the run still reaches COMPLETED, every target of the batch
    is processed (one outcome and one status query each), the outcome at
    position [i] is the failure carrying the error, and the outcome of every
    other target is the one it has on its own. *)
Theorem executor_isolates_failures
    (remote : RemoteClient) (validator : ReadinessValidator)
    (indicates_running : string → bool)
    (nm : option Notifications.NotificationManager)
    (targets : list LaunchTarget) (i : nat) (t : LaunchTarget) (e : Py.exn) :
  targets !! i = Some t →
  start_call_raises remote validator indicates_running t e →
  state (run remote validator indicates_running nm targets []).1 = COMPLETED
  ∧ length (outcomes (summary (run remote validator indicates_running nm targets []).1))
    = length targets
  ∧ status_calls (run remote validator indicates_running nm targets []).2
    = length targets
  ∧ outcomes (summary (run remote validator indicates_running nm targets []).1) !! i
    = Some (Failed (Py.exn_str e))
  ∧ ∀ j t', j ≠ i → targets !! j = Some t' →
      outcomes (summary (run remote validator indicates_running nm targets []).1) !! j
      = Some (outcome_alone remote validator indicates_running t').
Proof.
  intros Ht Hraise.
  destruct (run_spec remote validator indicates_running nm targets [])
    as (Hst & Hout & Hcalls).
  rewrite Hst, Hout, Hcalls, length_map. repeat split.
  - rewrite list_lookup_fmap, Ht. simpl. f_equal.
    by apply start_target_raising.
  - intros j t' _ Ht'. by rewrite list_lookup_fmap, Ht'.
Qed.

(** The batch of section 8: three targets, the start call of the second
    raises. *)
Lemma executor_isolates_failures_witness :
  state (run Scenario.stub Scenario.always_ready Scenario.is_running None
           Scenario.batch []).1 = COMPLETED
  ∧ outcomes (summary (run Scenario.stub Scenario.always_ready Scenario.is_running None
                         Scenario.batch []).1) !! 1
    = Some (Failed "unable to start: no such container").
Proof.
  destruct (executor_isolates_failures Scenario.stub Scenario.always_ready
              Scenario.is_running None Scenario.batch 1 (Scenario.target 102)
              (Py.ProxmoxException "unable to start: no such container") eq_refl)
    as (Hst & _ & _ & Hfail & _).
  - exists "stopped". repeat split; reflexivity.
  - split; [exact Hst | exact Hfail].
Defined.

Example batch_of_three :
  let ex := (run Scenario.stub Scenario.always_ready Scenario.is_running None
               Scenario.batch []).1 in
  outcomes (summary ex)
    = [Started; Failed "unable to start: no such container"; Started]
  ∧ failed_count (summary ex) = 1
  ∧ started_count (summary ex) = 2
  ∧ state ex = COMPLETED.
Proof. vm_compute. repeat split. Qed.

(** C9.  Starting a target whose status indicates that it runs already gives
    [AlreadyRunning], which is not a failure, and issues no start command:
    the only call added to the log is the status query. *)
Theorem start_running_target_is_noop
    (remote : RemoteClient) (validator : ReadinessValidator)
    (indicates_running : string → bool)
    (t : LaunchTarget) (status : string) (log : list RemoteCall) :
  getStatus remote (node t) (kind t) (identifier t) = Py.Ret status →
  indicates_running status = true →
  (start_target remote validator indicates_running t log).1 = AlreadyRunning
  ∧ is_failed (start_target remote validator indicates_running t log).1 = false
  ∧ (start_target remote validator indicates_running t log).2 = log ++ [GetStatusCall t]
  ∧ start_calls (start_target remote validator indicates_running t log).2
    = start_calls log.
Proof.
  intros Hstatus Hrun.
  assert (start_target remote validator indicates_running t log
          = (AlreadyRunning, log ++ [GetStatusCall t])) as ->.
  { unfold start_target, query_status, record_call, mbind, mret, Remote_bind, Remote_ret.
    simpl. by rewrite Hstatus, Hrun. }
  simpl. repeat split. rewrite start_calls_app. unfold start_calls at 2. simpl. lia.
Qed.

Lemma start_running_target_is_noop_witness :
  (start_target Scenario.stub_all_running Scenario.always_ready Scenario.is_running
     (Scenario.target 101) []).1 = AlreadyRunning
  ∧ start_calls (start_target Scenario.stub_all_running Scenario.always_ready
                   Scenario.is_running (Scenario.target 101) []).2 = 0.
Proof.
  destruct (start_running_target_is_noop Scenario.stub_all_running Scenario.always_ready
              Scenario.is_running (Scenario.target 101) "running" [] eq_refl eq_refl)
    as (Hout & _ & _ & Hcalls).
  split; [exact Hout | exact Hcalls].
Defined.

(** Repeating the run over targets that are all up starts nothing. *)
Example rerun_starts_nothing :
  let '(ex, log) := run Scenario.stub_all_running Scenario.always_ready
                      Scenario.is_running None Scenario.batch [] in
  outcomes (summary ex) = [AlreadyRunning; AlreadyRunning; AlreadyRunning]
  ∧ start_calls log = 0 ∧ status_calls log = 3.
Proof. vm_compute. repeat split. Qed.

End EngineFacts.

(* ===================================================================== *)
(** * Facts about pilot.py                                               *)
(* ===================================================================== *)

Module PilotFacts.
Import Pilot.

(** ** validate_vms *)


Lemma validate_vms_output (starts : list VMLaunchSettings) :
  (validate_vms starts).1 =
    ["⌜ Start settings validation: starting...";
     "  Found " +:+ pretty (length starts) +:+ " vm start settings."]
    ++ report_vms starts ++ ["∟ Start settings validation: completed."].
Proof. reflexivity. Qed.

(** The flag that [validate_vms] returns is [False] for every input. *)
Lemma validate_vms_flag (starts : list VMLaunchSettings) :
  (validate_vms starts).2 = false.
Proof. reflexivity. Qed.

(** C5.  The flag is false also for a list in which every target has a valid
    id, where the claim asks for true. *)
Theorem validate_vms_rejects_valid_list :
  forallb (λ vm, positive_integer (vm_id vm))
    [Scenario.vm (Py.PyInt 100); Scenario.vm (Py.PyInt 101)] = true
  ∧ report_vms [Scenario.vm (Py.PyInt 100); Scenario.vm (Py.PyInt 101)] = []
  ∧ (validate_vms [Scenario.vm (Py.PyInt 100); Scenario.vm (Py.PyInt 101)]).2 = false.
Proof. repeat split. Qed.




(** Integers other than zero pass the check of line 167, whatever their
    sign. *)
Lemma nonzero_int_passes (n : Z) :
  n ≠ 0%Z → wrong_vm_id {| vm_id := Py.PyInt n |} = false.
Proof.
  intros Hn. unfold wrong_vm_id. simpl. by rewrite bool_decide_eq_false_2.
Qed.

Example wrong_ids_report :
  (validate_vms [Scenario.vm (Py.PyInt 101); Scenario.vm (Py.PyInt 0);
                 Scenario.vm Py.PyNone; Scenario.vm (Py.PyStr "abc");
                 Scenario.vm (Py.PyFloat "1.5" false); Scenario.vm (Py.PyBool false);
                 Scenario.vm (Py.PyBool true); Scenario.vm (Py.PyInt (-5))]).1
  = ["⌜ Start settings validation: starting...";
     "  Found 8 vm start settings.";
     "  (!) Wrong VM id: 0";
     "  (!) Wrong VM id: None";
     "  (!) Wrong VM id: abc";
     "  (!) Wrong VM id: 1.5";
     "  (!) Wrong VM id: False";
     "∟ Start settings validation: completed."].
Proof. reflexivity. Qed.

(** ** main *)

Section Main.
Context {Client Validator Starter Exec Manager Registry : Type}.
Variable load : string → Py.result (option AppConfig).
Variable NOTIFIER_TYPES : Registry.
Variable NotificationManager :
  list Notifications.NotifierConfig → Registry → Py.result Manager.
Variable ProxmoxClient : gmap string Py.value → Py.result Client.
Variable HostValidator : Py.result Validator.
Variable VMStarter : Client → Validator → Py.result Starter.
Variable Executor :
  Client → option (list VMLaunchSettings) → option (gmap string Py.value) →
  Starter → option Manager → bool → Py.result Exec.
Variable Executor_start : Exec → list Event * Py.result unit.

#[local] Abbreviation main :=
  (main load NOTIFIER_TYPES NotificationManager ProxmoxClient HostValidator
     VMStarter Executor Executor_start).
#[local] Abbreviation run_loaded :=
  (run_loaded NOTIFIER_TYPES NotificationManager ProxmoxClient HostValidator
     VMStarter Executor Executor_start).
#[local] Abbreviation try_body :=
  (try_body ProxmoxClient HostValidator VMStarter Executor Executor_start).
#[local] Abbreviation build_notification_manager :=
  (build_notification_manager NOTIFIER_TYPES NotificationManager).

(** The run when nothing leaves the [try] statement uncaught. *)
Lemma main_completes app_config events :
  load CONFIG_FILE = Py.Ret (Some app_config) →
  run_loaded app_config = (events, None) →
  main = ([Log INFO "pilot is starting"; Log INFO "Config loaded."] ++ events
            ++ [Log INFO "pilot completed."], Returned).
Proof. intros Hload Hrun. unfold Pilot.main. by rewrite Hload, Hrun. Qed.

Lemma run_loaded_normal app_config nm during u :
  build_notification_manager app_config = Py.Ret nm →
  try_body app_config nm = (during, Py.Ret u) →
  run_loaded app_config = (during ++ flush nm, None).
Proof. intros Hnm Htry. unfold Pilot.run_loaded. by rewrite Hnm, Htry. Qed.

Lemma run_loaded_caught app_config nm during ex :
  build_notification_manager app_config = Py.Ret nm →
  try_body app_config nm = (during, Py.Raise ex) →
  Py.is_Exception ex = true →
  run_loaded app_config = (during ++ handler nm ex ++ flush nm, None).
Proof. intros Hnm Htry Hex. unfold Pilot.run_loaded. by rewrite Hnm, Htry, Hex. Qed.

(** What [except Exception] does not catch leaves [main]: nothing after the
    [try] statement runs. *)
Lemma run_loaded_uncaught app_config nm during ex :
  build_notification_manager app_config = Py.Ret nm →
  try_body app_config nm = (during, Py.Raise ex) →
  Py.is_Exception ex = false →
  run_loaded app_config = (during, Some ex).
Proof. intros Hnm Htry Hex. unfold Pilot.run_loaded. by rewrite Hnm, Htry, Hex. Qed.

Lemma handler_sends_nothing (nm : option Manager) ex : count_sends (handler nm ex) = 0.
Proof. by destruct nm. Qed.

End Main.

(** C2, as amended.  With a notification manager configured, [main] calls
    [send()] exactly once after the executor stage, as the last thing before
    it logs completion, when the stage returns and when it raises an instance
    of [Exception]; when the stage raises anything else (an interrupt, a
    SystemExit), the exception leaves [main] and nothing follows the stage:
    no [send()]. *)
Theorem main_sends_exactly_once
    {Client Validator Starter Exec Manager Registry : Type}
    (load : string → Py.result (option AppConfig)) (NOTIFIER_TYPES : Registry)
    (NotificationManager :
       list Notifications.NotifierConfig → Registry → Py.result Manager)
    (ProxmoxClient : gmap string Py.value → Py.result Client)
    (HostValidator : Py.result Validator)
    (VMStarter : Client → Validator → Py.result Starter)
    (Executor :
       Client → option (list VMLaunchSettings) → option (gmap string Py.value) →
       Starter → option Manager → bool → Py.result Exec)
    (Executor_start : Exec → list Event * Py.result unit)
    (app_config : AppConfig) (nm : Manager) (during : list Event)
    (r : Py.result unit) :
  load CONFIG_FILE = Py.Ret (Some app_config) →
  build_notification_manager NOTIFIER_TYPES NotificationManager app_config
    = Py.Ret (Some nm) →
  try_body ProxmoxClient HostValidator VMStarter Executor Executor_start
    app_config (Some nm) = (during, r) →
  ((∀ ex, r = Py.Raise ex → Py.is_Exception ex = true) →
   ∃ before,
     main load NOTIFIER_TYPES NotificationManager ProxmoxClient HostValidator
      VMStarter Executor Executor_start
     = ([Log INFO "pilot is starting"; Log INFO "Config loaded."] ++ during
          ++ (before ++ [NmSend]) ++ [Log INFO "pilot completed."], Returned)
     ∧ count_sends before = 0
     ∧ count_sends (before ++ [NmSend]) = 1)
  ∧ (∀ ex, r = Py.Raise ex → Py.is_Exception ex = false →
     main load NOTIFIER_TYPES NotificationManager ProxmoxClient HostValidator
      VMStarter Executor Executor_start
     = ([Log INFO "pilot is starting"; Log INFO "Config loaded."] ++ during,
        Propagated ex)).
Proof.
  intros Hload Hnm Htry. split.
  - intros Hexn. destruct r as [u|ex].
    + exists [Log DEBUG "Send notifications..."]. split; [|done].
      rewrite (main_completes _ _ _ _ _ _ _ _ app_config _ Hload
                 (run_loaded_normal _ _ _ _ _ _ _ _ _ _ _ Hnm Htry)).
      simpl. by rewrite <- !app_assoc.
    + exists (handler (Some nm) ex ++ [Log DEBUG "Send notifications..."]).
      split; [|done].
      rewrite (main_completes _ _ _ _ _ _ _ _ app_config _ Hload
                 (run_loaded_caught _ _ _ _ _ _ _ _ _ _ _ Hnm Htry
                    (Hexn ex eq_refl))).
      simpl. by rewrite <- !app_assoc.
  - intros ex -> Hex. unfold Pilot.main.
    by rewrite Hload, (run_loaded_uncaught _ _ _ _ _ _ _ _ _ _ _ Hnm Htry Hex).
Qed.

(** C3, as amended.  An exception that leaves the construction or the
    start-up of the executor and is an instance of [Exception] is caught by
    [main]: it is passed once to [fatal(str(ex))] when a manager is
    configured, logged, the notifications are sent, and [main] returns.  Any
    other exception (an interrupt, a SystemExit) is not caught: it leaves
    [main], with no [fatal] and no flush. *)
Theorem main_contains_fatal_exception
    {Client Validator Starter Exec Manager Registry : Type}
    (load : string → Py.result (option AppConfig)) (NOTIFIER_TYPES : Registry)
    (NotificationManager :
       list Notifications.NotifierConfig → Registry → Py.result Manager)
    (ProxmoxClient : gmap string Py.value → Py.result Client)
    (HostValidator : Py.result Validator)
    (VMStarter : Client → Validator → Py.result Starter)
    (Executor :
       Client → option (list VMLaunchSettings) → option (gmap string Py.value) →
       Starter → option Manager → bool → Py.result Exec)
    (Executor_start : Exec → list Event * Py.result unit)
    (app_config : AppConfig) (nm : option Manager) (during : list Event)
    (ex : Py.exn) :
  load CONFIG_FILE = Py.Ret (Some app_config) →
  build_notification_manager NOTIFIER_TYPES NotificationManager app_config
    = Py.Ret nm →
  try_body ProxmoxClient HostValidator VMStarter Executor Executor_start
    app_config nm = (during, Py.Raise ex) →
  main load NOTIFIER_TYPES NotificationManager ProxmoxClient HostValidator
      VMStarter Executor Executor_start
  = if Py.is_Exception ex
    then ([Log INFO "pilot is starting"; Log INFO "Config loaded."] ++ during
            ++ match nm with
               | Some _ => [NmFatal (Py.exn_str ex); Log ERROR (Py.exn_str ex);
                            Log DEBUG "Send notifications..."; NmSend]
               | None => [Log ERROR (Py.exn_str ex)]
               end
            ++ [Log INFO "pilot completed."], Returned)
    else ([Log INFO "pilot is starting"; Log INFO "Config loaded."] ++ during,
          Propagated ex).
Proof.
  intros Hload Hnm Htry. destruct (Py.is_Exception ex) eqn:Hex.
  - rewrite (main_completes _ _ _ _ _ _ _ _ app_config _ Hload
               (run_loaded_caught _ _ _ _ _ _ _ _ _ _ _ Hnm Htry Hex)).
    f_equal. simpl. do 2 f_equal. rewrite <- !app_assoc. f_equal. by destruct nm.
  - unfold Pilot.main.
    by rewrite Hload, (run_loaded_uncaught _ _ _ _ _ _ _ _ _ _ _ Hnm Htry Hex).
Qed.

(** C8, as amended.  After a fatal exception of the executor stage (an
    instance of [Exception]) [main] returns normally: no exception leaves it,
    in particular no SystemExit that would carry an exit code; the fatal
    section is in the notifications when a manager is configured. *)
Theorem main_returns_after_fatal_exception
    {Client Validator Starter Exec Manager Registry : Type}
    (load : string → Py.result (option AppConfig)) (NOTIFIER_TYPES : Registry)
    (NotificationManager :
       list Notifications.NotifierConfig → Registry → Py.result Manager)
    (ProxmoxClient : gmap string Py.value → Py.result Client)
    (HostValidator : Py.result Validator)
    (VMStarter : Client → Validator → Py.result Starter)
    (Executor :
       Client → option (list VMLaunchSettings) → option (gmap string Py.value) →
       Starter → option Manager → bool → Py.result Exec)
    (Executor_start : Exec → list Event * Py.result unit)
    (app_config : AppConfig) (nm : option Manager) (during : list Event)
    (ex : Py.exn) :
  load CONFIG_FILE = Py.Ret (Some app_config) →
  build_notification_manager NOTIFIER_TYPES NotificationManager app_config
    = Py.Ret nm →
  try_body ProxmoxClient HostValidator VMStarter Executor Executor_start
    app_config nm = (during, Py.Raise ex) →
  Py.is_Exception ex = true →
  (main load NOTIFIER_TYPES NotificationManager ProxmoxClient HostValidator
      VMStarter Executor Executor_start).2 = Returned
  ∧ (∀ e, (main load NOTIFIER_TYPES NotificationManager ProxmoxClient HostValidator
      VMStarter Executor Executor_start).2 ≠ Propagated e)
  ∧ (is_Some nm →
     NmFatal (Py.exn_str ex)
       ∈ (main load NOTIFIER_TYPES NotificationManager ProxmoxClient HostValidator
      VMStarter Executor Executor_start).1).
Proof.
  intros Hload Hnm Htry Hex.
  rewrite (main_completes _ _ _ _ _ _ _ _ app_config _ Hload
             (run_loaded_caught _ _ _ _ _ _ _ _ _ _ _ Hnm Htry Hex)).
  split; [done|]. split; [done|]. intros [m ->]. simpl.
  do 2 apply list_elem_of_further. apply elem_of_app. left.
  apply elem_of_app. right. apply list_elem_of_here.
Qed.

Lemma main_sends_exactly_once_witness :
  (∃ before,
     Scenario.main_with (Some (Scenario.notifier_config false))
       Scenario.accepted_login Scenario.quiet_start
     = ([Log INFO "pilot is starting"; Log INFO "Config loaded."]
          ++ [Collaborator "start 101"]
          ++ (before ++ [NmSend]) ++ [Log INFO "pilot completed."], Returned)
     ∧ count_sends before = 0
     ∧ count_sends (before ++ [NmSend]) = 1)
  ∧ (∃ before,
     Scenario.main_with (Some (Scenario.notifier_config false))
       Scenario.rejected_login Scenario.quiet_start
     = ([Log INFO "pilot is starting"; Log INFO "Config loaded."]
          ++ []
          ++ (before ++ [NmSend]) ++ [Log INFO "pilot completed."], Returned)
     ∧ count_sends before = 0
     ∧ count_sends (before ++ [NmSend]) = 1)
  ∧ Scenario.main_with (Some (Scenario.notifier_config false))
      Scenario.accepted_login Scenario.interrupted_start
    = ([Log INFO "pilot is starting"; Log INFO "Config loaded."]
         ++ [Collaborator "start 101"], Propagated Py.KeyboardInterrupt).
Proof.
  split; [|split].
  - apply (main_sends_exactly_once _ () _ _ _ _ _ _
             (Scenario.app_config (Some (Scenario.notifier_config false))) ()
             [Collaborator "start 101"] (Py.Ret ()));
      [reflexivity | reflexivity | reflexivity | intros ex H; discriminate H].
  - apply (main_sends_exactly_once _ () _ _ _ _ _ _
             (Scenario.app_config (Some (Scenario.notifier_config false))) ()
             [] (Py.Raise (Py.OtherException "AuthenticationError"
                 "Couldn't authenticate user: root@pam to https://pve.local:8006")));
      [reflexivity | reflexivity | reflexivity |].
    intros ex H. injection H as <-. reflexivity.
  - apply (main_sends_exactly_once _ () _ _ _ _ _ _
             (Scenario.app_config (Some (Scenario.notifier_config false))) ()
             [Collaborator "start 101"] (Py.Raise Py.KeyboardInterrupt));
      reflexivity.
Defined.

(** C2, as stated, fails: a manager is configured, the user interrupts the
    start-up, and [main] ends without a single [send()]. *)
Lemma interrupted_run_sends_nothing :
  build_notification_manager () (λ _ _, Py.Ret ())
    (Scenario.app_config (Some (Scenario.notifier_config false)))
  = Py.Ret (Some ())
  ∧ (Scenario.main_with (Some (Scenario.notifier_config false))
       Scenario.accepted_login Scenario.interrupted_start).2
    = Propagated Py.KeyboardInterrupt
  ∧ count_sends (Scenario.main_with (Some (Scenario.notifier_config false))
                   Scenario.accepted_login Scenario.interrupted_start).1 = 0.
Proof. repeat split. Qed.

Lemma main_contains_fatal_exception_witness :
  Scenario.main_with (Some (Scenario.notifier_config false))
    Scenario.rejected_login Scenario.quiet_start
  = ([Log INFO "pilot is starting"; Log INFO "Config loaded.";
      NmFatal "Couldn't authenticate user: root@pam to https://pve.local:8006";
      Log ERROR "Couldn't authenticate user: root@pam to https://pve.local:8006";
      Log DEBUG "Send notifications..."; NmSend;
      Log INFO "pilot completed."], Returned).
Proof.
  apply (main_contains_fatal_exception _ () _ _ _ _ _ _
           (Scenario.app_config (Some (Scenario.notifier_config false))) (Some ())
           [] (Py.OtherException "AuthenticationError"
                 "Couldn't authenticate user: root@pam to https://pve.local:8006"));
    reflexivity.
Defined.

(** C3, as stated, fails: the construction of the client ends in a
    SystemExit; [main] does not catch it, calls neither [fatal] nor [send],
    and the exception leaves it. *)
Lemma system_exit_is_not_caught :
  try_body Fixtures.aborting_login (Py.Ret ()) (λ _ _, Py.Ret ())
    (λ _ _ _ _ _ _, Py.Ret ()) Scenario.quiet_start
    (Scenario.app_config (Some (Scenario.notifier_config false))) (Some ())
  = ([], Py.Raise (Py.SystemExit 2))
  ∧ Scenario.main_with (Some (Scenario.notifier_config false))
      Fixtures.aborting_login Scenario.quiet_start
    = ([Log INFO "pilot is starting"; Log INFO "Config loaded."],
       Propagated (Py.SystemExit 2))
  ∧ count_fatals (Scenario.main_with (Some (Scenario.notifier_config false))
                    Fixtures.aborting_login Scenario.quiet_start).1 = 0
  ∧ count_sends (Scenario.main_with (Some (Scenario.notifier_config false))
                   Fixtures.aborting_login Scenario.quiet_start).1 = 0.
Proof. repeat split. Qed.

Lemma main_returns_after_fatal_exception_witness :
  (Scenario.main_with (Some (Scenario.notifier_config false))
     Scenario.rejected_login Scenario.quiet_start).2 = Returned
  ∧ NmFatal "Couldn't authenticate user: root@pam to https://pve.local:8006"
      ∈ (Scenario.main_with (Some (Scenario.notifier_config false))
           Scenario.rejected_login Scenario.quiet_start).1.
Proof.
  destruct (main_returns_after_fatal_exception
              (λ _, Py.Ret (Some (Scenario.app_config
                                    (Some (Scenario.notifier_config false)))))
              () (λ _ _, Py.Ret ()) Scenario.rejected_login (Py.Ret ())
              (λ _ _, Py.Ret ()) (λ _ _ _ _ _ _, Py.Ret ()) Scenario.quiet_start
              (Scenario.app_config (Some (Scenario.notifier_config false))) (Some ())
              [] (Py.OtherException "AuthenticationError"
                 "Couldn't authenticate user: root@pam to https://pve.local:8006")
              eq_refl eq_refl eq_refl eq_refl) as (Hret & _ & Hfatal).
  split; [exact Hret | apply Hfatal; by exists ()].
Defined.

(** C8, as stated, fails: the client cannot authenticate, the executor stage
    raises, the fatal section is recorded once, and [main] returns normally:
    it raises nothing, so no SystemExit with a non-zero code either. *)
Lemma fatal_run_returns_normally :
  try_body Scenario.rejected_login (Py.Ret ()) (λ _ _, Py.Ret ())
    (λ _ _ _ _ _ _, Py.Ret ()) Scenario.quiet_start
    (Scenario.app_config (Some (Scenario.notifier_config false))) (Some ())
  = ([], Py.Raise (Py.OtherException "AuthenticationError"
                 "Couldn't authenticate user: root@pam to https://pve.local:8006"))
  ∧ count_fatals (Scenario.main_with (Some (Scenario.notifier_config false))
                    Scenario.rejected_login Scenario.quiet_start).1 = 1
  ∧ (Scenario.main_with (Some (Scenario.notifier_config false))
       Scenario.rejected_login Scenario.quiet_start).2 = Returned
  ∧ (∀ code, (Scenario.main_with (Some (Scenario.notifier_config false))
                Scenario.rejected_login Scenario.quiet_start).2
             ≠ Propagated (Py.SystemExit code)).
Proof.
  split; [reflexivity|]. split; [reflexivity|]. split; [reflexivity|].
  intros code H. vm_compute in H. discriminate H.
Qed.

(** An interrupt during the start-up is not an [Exception]: it leaves
    [main], and neither [fatal] nor [send] is called. *)
Example main_interrupted :
  Scenario.main_with (Some (Scenario.notifier_config false))
    Scenario.accepted_login Scenario.interrupted_start
  = ([Log INFO "pilot is starting"; Log INFO "Config loaded.";
      Collaborator "start 101"], Propagated Py.KeyboardInterrupt).
Proof. reflexivity. Qed.

(** Without notification settings nothing is sent. *)
Example main_without_manager :
  Scenario.main_with None Scenario.rejected_login Scenario.quiet_start
  = ([Log INFO "pilot is starting"; Log INFO "Config loaded.";
      Log ERROR "Couldn't authenticate user: root@pam to https://pve.local:8006";
      Log INFO "pilot completed."], Returned).
Proof. reflexivity. Qed.

End PilotFacts.

(* ===================================================================== *)
(** * More facts about px.py                                             *)
(* ===================================================================== *)

Module PxMore.

Lemma string_length_app (s t : string) :
  String.length (s +:+ t) = String.length s + String.length t.
Proof. induction s as [|a s IH]; simpl; [done | by rewrite IH]. Qed.

(** Cancellation of a common suffix. *)
Lemma string_app_inj_r (t : string) : ∀ s1 s2, s1 +:+ t = s2 +:+ t → s1 = s2.
Proof.
  induction s1 as [|a s1 IH]; intros [|b s2] H; simpl in H.
  - done.
  - apply (f_equal String.length) in H. simpl in H.
    rewrite !string_length_app in H. simpl in H. lia.
  - apply (f_equal String.length) in H. simpl in H.
    rewrite !string_length_app in H. simpl in H. lia.
  - injection H as -> H. f_equal. by apply IH.
Qed.

Lemma convert_never_resource {A} (r : Py.result A) (e : Py.exn) :
  Px.convert_resource_exception r = Py.Raise e → Py.is_ResourceException e = false.
Proof.
  destruct r as [a|e']; simpl; [done|].
  destruct e'; intros H; injection H as <-; done.
Qed.

(** X1.  Whatever the API does, no [ResourceException] leaves the client's
    request methods: [start_vm], [stop_vm] and [get_status] raise
    [ProxmoxException] in its place, or some other exception. *)
Theorem client_never_raises_resource_exception
    (cmd : Px.ProxmoxCommand) (self : Px.ProxmoxClient)
    (node type id : Py.value) (e : Py.exn) :
  Px.start_vm cmd self node type id = Py.Raise e
  ∨ Px.stop_vm cmd self node type id = Py.Raise e
  ∨ Px.get_status cmd self node type id = Py.Raise e →
  Py.is_ResourceException e = false.
Proof.
  unfold Px.start_vm, Px.stop_vm, Px.get_status, Px.px_post, Px.px_get.
  intros [H|[H|H]].
  - destruct (Px.convert_resource_exception _) as [v|e'] eqn:Hc; [done|].
    simpl in H. injection H as <-. by apply convert_never_resource in Hc.
  - destruct (Px.convert_resource_exception _) as [v|e'] eqn:Hc; [done|].
    simpl in H. injection H as <-. by apply convert_never_resource in Hc.
  - by apply convert_never_resource in H.
Qed.

Lemma client_never_raises_resource_exception_witness :
  Py.is_ResourceException (Py.ProxmoxException "Configuration file does not exist")
  = false.
Proof.
  apply (client_never_raises_resource_exception Scenario.commands
           (Scenario.client_of Scenario.root (Py.PyStr "pam") (Some Scenario.rejecting_api))
           Scenario.pve (Py.PyStr "lxc") (Py.PyInt 100)).
  right; right. reflexivity.
Defined.

(** X2.  A user that is not a string makes the construction fail with a
    [TypeError], whatever [proxmoxer.ProxmoxAPI] would do. *)
Theorem init_rejects_non_string_user
    (new_api : Px.api_args → Py.result Px.ProxmoxAPI)
    (host port user realm password verify_ssl : Py.value) :
  (∀ s, user ≠ Py.PyStr s) →
  ∃ message,
    Px.init new_api host port user realm password verify_ssl
    = Py.Raise (Py.OtherException "TypeError" message).
Proof.
  intros Huser. unfold Px.init, Px.build_client, Px.build_args, Px.user_id. simpl.
  destruct user as [|b|n|repr z|s]; simpl; eauto.
  by destruct (Huser s).
Qed.

Lemma init_rejects_non_string_user_witness :
  ∃ message,
    Px.init (λ _, Py.Ret Scenario.rejecting_api) (Py.PyStr "pve.local") (Py.PyInt 8006)
      Py.PyNone (Py.PyStr "pam") (Py.PyStr "secret") (Py.PyBool false)
    = Py.Raise (Py.OtherException "TypeError" message).
Proof. apply init_rejects_non_string_user. intros s H. discriminate H. Defined.

(** X3.  The login identity handed to [proxmoxer.ProxmoxAPI] always has an '@'
    in it, and the timeout is 30 seconds. *)
Theorem login_identity_has_at (self : Px.ProxmoxClient) (args : Px.api_args) :
  Px.build_args self = Py.Ret args →
  (∃ p s, Px.arg_user args = p +:+ "@" +:+ s) ∧ Px.arg_timeout args = 30%Z.
Proof.
  unfold Px.build_args, Px.user_id.
  destruct (Px._user self) as [|b|n|repr z|user]; simpl; try done.
  destruct (Py.str_in "@" user) eqn:Hin; simpl; intros H; injection H as <-; simpl.
  - split; [|done]. by apply PxFacts.str_in_spec.
  - split; [|done]. by exists user, (Py.str (Px._realm self)).
Qed.

Lemma login_identity_has_at_witness :
  (∃ p s, "root@pam" = p +:+ "@" +:+ s) ∧ 30%Z = 30%Z.
Proof.
  exact (login_identity_has_at
           (Scenario.client_of Scenario.root (Py.PyStr "pam") None) _ eq_refl).
Defined.

(** X4.  Construction fails exactly when the login identity cannot be formed or
    [proxmoxer.ProxmoxAPI] fails, and then with that very exception: an error
    of the API constructor is not converted. *)
Theorem build_client_failure
    (new_api : Px.api_args → Py.result Px.ProxmoxAPI)
    (self : Px.ProxmoxClient) (e : Py.exn) :
  Px.build_client new_api self = Py.Raise e ↔
  Px.build_args self = Py.Raise e
  ∨ ∃ args, Px.build_args self = Py.Ret args ∧ new_api args = Py.Raise e.
Proof.
  unfold Px.build_client.
  destruct (Px.build_args self) as [args|e'] eqn:Hargs; simpl.
  - destruct (new_api args) as [api|e'] eqn:Hapi; simpl.
    + split; [done|]. intros [H|(args' & H & Hnew)]; [done|].
      injection H as <-. by rewrite Hapi in Hnew.
    + split.
      * intros H. injection H as <-. right. exists args. by rewrite Hapi.
      * intros [H|(args' & H & Hnew)]; [done|].
        injection H as <-. rewrite Hapi in Hnew. by injection Hnew as <-.
  - split.
    + intros H. injection H as <-. by left.
    + intros [H|(args & H & _)]; [by injection H as <- | done].
Qed.

(** X5.  A client that was constructed holds the API object that the constructor
    returned: a status query returns what the GET returned, a start command
    whose POST succeeds returns None. *)
Theorem constructed_client_uses_its_api
    (new_api : Px.api_args → Py.result Px.ProxmoxAPI) (cmd : Px.ProxmoxCommand)
    (host port user realm password verify_ssl : Py.value) (c : Px.ProxmoxClient) :
  Px.init new_api host port user realm password verify_ssl = Py.Ret c →
  ∃ args api,
    new_api args = Py.Ret api
    ∧ Px._proxmox c = Some api
    ∧ (∀ node type id v,
         Px.api_get api (Px.status_path node type id (Px.CURRENT cmd)) = Py.Ret v →
         Px.get_status cmd c node type id = Py.Ret v)
    ∧ (∀ node type id v,
         Px.api_post api (Px.status_path node type id (Px.START cmd)) = Py.Ret v →
         Px.start_vm cmd c node type id = Py.Ret Py.PyNone).
Proof.
  unfold Px.init, Px.build_client.
  destruct (Px.build_args _) as [args|e] eqn:Hargs; simpl; [|done].
  destruct (new_api args) as [api|e] eqn:Hapi; simpl; [|done].
  intros H. injection H as <-. exists args, api. repeat split.
  - done.
  - intros node type id v Hget.
    unfold Px.get_status, Px.px_get, Px.proxmox. simpl. by rewrite Hget.
  - intros node type id v Hpost.
    unfold Px.start_vm, Px.px_post, Px.proxmox. simpl. by rewrite Hpost.
Qed.

(** X6.  Requests for different numeric ids on the same node and of the same
    type go to different paths. *)
Theorem status_path_separates_ids (node type : Py.value) (a b : Z) (command : string) :
  a ≠ b →
  Px.status_path node type (Py.PyInt a) command
  ≠ Px.status_path node type (Py.PyInt b) command.
Proof.
  intros Hab H. apply Hab. unfold Px.status_path in H. simpl in H.
  do 5 apply (inj (String.append _)) in H.
  apply (inj pretty). revert H. apply string_app_inj_r.
Qed.

Lemma status_path_separates_ids_witness :
  Px.status_path Scenario.pve (Py.PyStr "lxc") (Py.PyInt 100) "start"
  ≠ Px.status_path Scenario.pve (Py.PyStr "lxc") (Py.PyInt 101) "start".
Proof. apply status_path_separates_ids. lia. Defined.

Lemma constructed_client_uses_its_api_witness :
  ∃ c, Px.init (λ _, Py.Ret Fixtures.answering_api) (Py.PyStr "pve.local")
         (Py.PyInt 8006) Scenario.root (Py.PyStr "pam") (Py.PyStr "secret")
         (Py.PyBool false) = Py.Ret c
       ∧ Px.get_status Scenario.commands c Scenario.pve (Py.PyStr "lxc") (Py.PyInt 100)
         = Py.Ret (Py.PyStr "running")
       ∧ Px.start_vm Scenario.commands c Scenario.pve (Py.PyStr "lxc") (Py.PyInt 100)
         = Py.Ret Py.PyNone.
Proof.
  eexists. split; [reflexivity|].
  destruct (constructed_client_uses_its_api (λ _, Py.Ret Fixtures.answering_api)
              Scenario.commands (Py.PyStr "pve.local") (Py.PyInt 8006) Scenario.root
              (Py.PyStr "pam") (Py.PyStr "secret") (Py.PyBool false) _ eq_refl)
    as (args & api & Hnew & _ & Hget & Hpost).
  injection Hnew as <-. split.
  - by apply (Hget _ _ _ (Py.PyStr "running")).
  - by apply (Hpost _ _ _ (Py.PyStr "UPID:pve:00001A2B:start")).
Defined.

End PxMore.

(* ===================================================================== *)
(** * More facts about pilot.py: validate_vms and main                   *)
(* ===================================================================== *)

Module PilotMore.
Import Pilot.

Lemma report_vms_filter (starts : list VMLaunchSettings) :
  report_vms starts
  = wrong_vm_id_line <$> filter (λ vm, wrong_vm_id vm = true) starts.
Proof.
  induction starts as [|vm starts IH]; [done|].
  simpl. rewrite filter_cons. destruct (wrong_vm_id vm) eqn:Hw.
  - rewrite decide_True by done. simpl. by rewrite IH.
  - rewrite decide_False by done. simpl. by rewrite IH.
Qed.

(** X7.  [validate_vms] prints the header, the number of entries, one line per
    entry that fails the check of line 167, in the order of the list, and
    the footer. *)
Theorem validate_vms_prints_one_line_per_wrong_id (starts : list VMLaunchSettings) :
  (validate_vms starts).1
  = ["⌜ Start settings validation: starting...";
     "  Found " +:+ pretty (length starts) +:+ " vm start settings."]
    ++ (wrong_vm_id_line <$> filter (λ vm, wrong_vm_id vm = true) starts)
    ++ ["∟ Start settings validation: completed."]
  ∧ length (validate_vms starts).1
    = 3 + length (filter (λ vm, wrong_vm_id vm = true) starts).
Proof.
  rewrite PilotFacts.validate_vms_output, report_vms_filter. split; [done|].
  simpl. rewrite length_app, length_fmap. simpl. lia.
Qed.

(** The ids that pass the check of line 167: the integers other than zero,
    of either sign, and True. *)
Lemma accepted_id (vm : VMLaunchSettings) :
  wrong_vm_id vm = false ↔
  (∃ n, n ≠ 0%Z ∧ vm_id vm = Py.PyInt n) ∨ vm_id vm = Py.PyBool true.
Proof.
  unfold wrong_vm_id. destruct (vm_id vm) as [|b|n|repr z|s]; simpl.
  - split; [done|]. intros [(n & _ & H)|H]; done.
  - destruct b; simpl.
    + split; [by right | done].
    + split; [done|]. intros [(n & _ & H)|H]; done.
  - rewrite orb_false_r. rewrite bool_decide_eq_false. split.
    + intros Hn. left. by exists n.
    + intros [(m & Hm & H)|H]; [|done]. by injection H as ->.
  - rewrite orb_true_r. split; [done|]. intros [(n & _ & H)|H]; done.
  - split; [done|]. intros [(n & _ & H)|H]; done.
Qed.

(** X8.  [validate_vms] prints nothing but header, count and footer exactly when
    every id is an integer other than zero or True; a negative id and True
    raise no finding. *)
Theorem validate_vms_silent_iff (starts : list VMLaunchSettings) :
  (validate_vms starts).1
  = ["⌜ Start settings validation: starting...";
     "  Found " +:+ pretty (length starts) +:+ " vm start settings.";
     "∟ Start settings validation: completed."]
  ↔ ∀ vm, vm ∈ starts →
      (∃ n, n ≠ 0%Z ∧ vm_id vm = Py.PyInt n) ∨ vm_id vm = Py.PyBool true.
Proof.
  rewrite PilotFacts.validate_vms_output, report_vms_filter. simpl. split.
  - intros H vm Hin. apply accepted_id.
    destruct (wrong_vm_id vm) eqn:Hw; [|done].
    assert (vm ∈ filter (λ vm, wrong_vm_id vm = true) starts) as Hf
      by (by apply list_elem_of_filter).
    destruct (filter (λ vm, wrong_vm_id vm = true) starts) as [|x l] eqn:Hfl.
    + by apply elem_of_nil in Hf.
    + simpl in H. injection H as H. destruct l; simpl in H; discriminate H.
  - intros Hall.
    assert (filter (λ vm, wrong_vm_id vm = true) starts = []) as ->; [|done].
    destruct (filter (λ vm, wrong_vm_id vm = true) starts) as [|x l] eqn:Hfl; [done|].
    assert (x ∈ filter (λ vm, wrong_vm_id vm = true) starts) as Hx
      by (rewrite Hfl; apply list_elem_of_here).
    apply list_elem_of_filter in Hx as [Hw Hin].
    apply Hall, accepted_id in Hin. congruence.
Qed.

Section Main.
Context {Client Validator Starter Exec Manager Registry : Type}.
Variable load : string → Py.result (option AppConfig).
Variable NOTIFIER_TYPES : Registry.
Variable NotificationManager :
  list Notifications.NotifierConfig → Registry → Py.result Manager.
Variable ProxmoxClient : gmap string Py.value → Py.result Client.
Variable HostValidator : Py.result Validator.
Variable VMStarter : Client → Validator → Py.result Starter.
Variable Executor :
  Client → option (list VMLaunchSettings) → option (gmap string Py.value) →
  Starter → option Manager → bool → Py.result Exec.
Variable Executor_start : Exec → list Event * Py.result unit.

#[local] Abbreviation main :=
  (main load NOTIFIER_TYPES NotificationManager ProxmoxClient HostValidator
     VMStarter Executor Executor_start).
#[local] Abbreviation try_body :=
  (try_body ProxmoxClient HostValidator VMStarter Executor Executor_start).
#[local] Abbreviation build_notification_manager :=
  (build_notification_manager NOTIFIER_TYPES NotificationManager).

(** X9.  What [except Exception] does not catch (an interrupt, a SystemExit)
    leaves [main] at once: no [fatal], no [send], no "pilot completed.". *)
Theorem main_propagates_non_exception
    (app_config : AppConfig) (nm : option Manager) (during : list Event)
    (ex : Py.exn) :
  load CONFIG_FILE = Py.Ret (Some app_config) →
  build_notification_manager app_config = Py.Ret nm →
  try_body app_config nm = (during, Py.Raise ex) →
  Py.is_Exception ex = false →
  main = ([Log INFO "pilot is starting"; Log INFO "Config loaded."] ++ during,
          Propagated ex).
Proof.
  intros Hload Hnm Htry Hex. unfold Pilot.main, run_loaded.
  by rewrite Hload, Hnm, Htry, Hex.
Qed.

(** X10.  The manager is built outside the [try]: when its constructor raises,
    whatever the exception, it leaves [main] before the executor is built. *)
Theorem main_propagates_manager_failure
    (app_config : AppConfig) (settings : list Notifications.NotifierConfig)
    (ex : Py.exn) :
  load CONFIG_FILE = Py.Ret (Some app_config) →
  notification_settings app_config = Some settings →
  settings ≠ [] →
  NotificationManager settings NOTIFIER_TYPES = Py.Raise ex →
  main = ([Log INFO "pilot is starting"; Log INFO "Config loaded."], Propagated ex).
Proof.
  intros Hload Hset Hne Hnm.
  unfold Pilot.main, run_loaded, Pilot.build_notification_manager.
  rewrite Hload, Hset. rewrite bool_decide_eq_true_2 by (destruct settings; [done|simpl; lia]).
  by rewrite Hnm.
Qed.

(** X11.  Without notifier entries (no section, or an empty one) no manager
    is built and [main] calls neither [fatal] nor [send].  After the executor
    stage it only logs: completion when the stage returned, the error and
    completion when it raised an instance of [Exception]; anything else the
    stage raises leaves [main], and nothing follows the stage. *)
Theorem main_without_notifiers
    (app_config : AppConfig) (during : list Event) (r : Py.result unit) :
  load CONFIG_FILE = Py.Ret (Some app_config) →
  notification_settings app_config = None
    ∨ notification_settings app_config = Some [] →
  try_body app_config None = (during, r) →
  main = match r with
         | Py.Ret _ =>
             ([Log INFO "pilot is starting"; Log INFO "Config loaded."] ++ during
                ++ [Log INFO "pilot completed."], Returned)
         | Py.Raise ex =>
             if Py.is_Exception ex
             then ([Log INFO "pilot is starting"; Log INFO "Config loaded."] ++ during
                     ++ [Log ERROR (Py.exn_str ex); Log INFO "pilot completed."],
                   Returned)
             else ([Log INFO "pilot is starting"; Log INFO "Config loaded."] ++ during,
                   Propagated ex)
         end.
Proof.
  intros Hload Hset Htry.
  assert (build_notification_manager app_config = Py.Ret None) as Hnm.
  { unfold Pilot.build_notification_manager. by destruct Hset as [-> | ->]. }
  unfold Pilot.main, run_loaded. rewrite Hload, Hnm, Htry.
  destruct r as [u|ex].
  - simpl. by rewrite app_nil_r.
  - destruct (Py.is_Exception ex); [|done]. simpl. by rewrite <- !app_assoc.
Qed.

(** X12.  A configuration without the proxmox section: the executor is never
    built, and the AttributeError of line 21 is what is reported. *)
Theorem main_without_proxmox_section (app_config : AppConfig) (nm : option Manager) :
  load CONFIG_FILE = Py.Ret (Some app_config) →
  build_notification_manager app_config = Py.Ret nm →
  proxmox_config app_config = None →
  main = ([Log INFO "pilot is starting"; Log INFO "Config loaded."]
            ++ match nm with
               | Some _ =>
                   [NmFatal "'NoneType' object has no attribute 'px_settings'";
                    Log ERROR "'NoneType' object has no attribute 'px_settings'";
                    Log DEBUG "Send notifications..."; NmSend]
               | None =>
                   [Log ERROR "'NoneType' object has no attribute 'px_settings'"]
               end
            ++ [Log INFO "pilot completed."], Returned).
Proof.
  intros Hload Hnm Hpc.
  unfold Pilot.main, run_loaded, Pilot.try_body, build_executor, proxmox_attr.
  rewrite Hload, Hnm, Hpc. simpl. by destruct nm.
Qed.

End Main.

Lemma main_propagates_non_exception_witness :
  Scenario.main_with (Some (Scenario.notifier_config false))
    Scenario.accepted_login Scenario.interrupted_start
  = ([Log INFO "pilot is starting"; Log INFO "Config loaded."]
       ++ [Collaborator "start 101"], Propagated Py.KeyboardInterrupt).
Proof.
  apply (main_propagates_non_exception _ () _ _ _ _ _ _
           (Scenario.app_config (Some (Scenario.notifier_config false))) (Some ()));
    reflexivity.
Defined.

Lemma main_propagates_manager_failure_witness :
  Pilot.main (λ _, Py.Ret (Some (Scenario.app_config (Some (Scenario.notifier_config false)))))
    () Fixtures.broken_manager Scenario.accepted_login (Py.Ret ()) (λ _ _, Py.Ret ())
    (λ _ _ _ _ _ _, Py.Ret ()) Scenario.quiet_start
  = ([Log INFO "pilot is starting"; Log INFO "Config loaded."],
     Propagated (Py.OtherException "KeyError" "'token'")).
Proof.
  apply (main_propagates_manager_failure _ () _ _ _ _ _ _
           (Scenario.app_config (Some (Scenario.notifier_config false)))
           (Scenario.notifier_config false));
    [reflexivity | reflexivity | discriminate | reflexivity].
Defined.

Lemma main_without_notifiers_witness :
  Scenario.main_with (Some []) Scenario.rejected_login Scenario.quiet_start
  = ([Log INFO "pilot is starting"; Log INFO "Config loaded."] ++ []
       ++ [Log ERROR "Couldn't authenticate user: root@pam to https://pve.local:8006";
           Log INFO "pilot completed."], Returned).
Proof.
  apply (main_without_notifiers _ () _ _ _ _ _ _ (Scenario.app_config (Some [])) []
           (Py.Raise (Py.OtherException "AuthenticationError"
              "Couldn't authenticate user: root@pam to https://pve.local:8006")));
    [reflexivity | by right | reflexivity].
Defined.

Lemma main_without_proxmox_section_witness :
  Fixtures.main_on Fixtures.config_without_proxmox
  = ([Log INFO "pilot is starting"; Log INFO "Config loaded.";
      NmFatal "'NoneType' object has no attribute 'px_settings'";
      Log ERROR "'NoneType' object has no attribute 'px_settings'";
      Log DEBUG "Send notifications..."; NmSend;
      Log INFO "pilot completed."], Returned).
Proof.
  apply (main_without_proxmox_section _ () _ _ _ _ _ _
           Fixtures.config_without_proxmox (Some ()));
    reflexivity.
Defined.

End PilotMore.

(* ===================================================================== *)
(** * Facts about validate_config and its helpers                        *)
(* ===================================================================== *)

Module ValidationFacts.
Import Pilot Validation.

Lemma string_nonempty_length (s : string) : s ≠ "" ↔ 0 < String.length s.
Proof. destruct s; simpl; split; intros H; try done; lia. Qed.

Lemma nonempty_true (v : Py.value) :
  Builtins.nonempty v = Py.Ret true ↔ ∃ s, v = Py.PyStr s ∧ s ≠ "".
Proof.
  unfold Builtins.nonempty. destruct v as [|b|n|repr z|s]; simpl;
    try (split; [done | intros (s' & H & _); done]).
  split.
  - intros H. injection H as H. apply bool_decide_eq_true in H.
    exists s. split; [done|]. by apply string_nonempty_length.
  - intros (s' & H & Hne). injection H as <-.
    f_equal. apply bool_decide_eq_true. by apply string_nonempty_length.
Qed.

(** A truthy scalar has a positive length, or no length at all. *)
Lemma truthy_nonempty (v : Py.value) :
  Builtins.truthy v = true →
  Builtins.nonempty v = Py.Ret true ∨ ∃ e, Builtins.nonempty v = Py.Raise e.
Proof.
  destruct v as [|b|n|repr z|s]; simpl; intros H; try done;
    try (right; unfold Builtins.nonempty; simpl; eauto; fail).
  left. apply nonempty_true. exists s. split; [done|].
  apply negb_true_iff, bool_decide_eq_false in H. done.
Qed.

Lemma present_truthy (v : Py.value) :
  (∃ s, v = Py.PyStr s ∧ s ≠ "") → Builtins.truthy v = true.
Proof.
  intros (s & -> & Hne). simpl. by rewrite bool_decide_eq_false_2.
Qed.

Lemma host_check_cases (host : Py.value) (hc : bool * string) :
  host_check host = Py.Ret hc →
  (hc = (false, "Missing") ∧ host = Py.PyNone)
  ∨ (hc = (true, "Ok") ∧ ∃ s, host = Py.PyStr s ∧ s ≠ "")
  ∨ (hc = (false, "Empty") ∧ host = Py.PyStr "").
Proof.
  unfold host_check. destruct host as [|b|n|repr z|s]; simpl; try done.
  - intros H. injection H as <-. by left.
  - unfold Builtins.nonempty. simpl. destruct s as [|a s]; simpl.
    + intros H. injection H as <-. by right; right.
    + intros H. injection H as <-.
      right; left. split; [done|]. by eexists.
Qed.

(** The three outcomes of the credentials check. *)
Lemma auth_check_outcomes
    (token token_value user password realm : Py.value) (ac : bool * string) :
  auth_check token token_value user password realm = Py.Ret ac →
  (ac = (true, "Ok (Token-based)")
   ∧ (∃ s, token = Py.PyStr s ∧ s ≠ "")
   ∧ (∃ s, token_value = Py.PyStr s ∧ s ≠ ""))
  ∨ (ac = (true, "Ok (User-password-based)")
     ∧ (∃ s, user = Py.PyStr s ∧ s ≠ "")
     ∧ (∃ s, password = Py.PyStr s ∧ s ≠ "")
     ∧ (∃ s, realm = Py.PyStr s ∧ s ≠ ""))
  ∨ (ac = (false, "Missing Authentication Information")
     ∧ (Builtins.truthy token && Builtins.truthy token_value = false)
     ∧ (Builtins.truthy user && Builtins.truthy password
        && Builtins.truthy realm = false)).
Proof.
  unfold auth_check.
  destruct (Builtins.truthy token && Builtins.truthy token_value) eqn:Htok.
  - apply andb_true_iff in Htok as [Ht Htv].
    destruct (truthy_nonempty _ Ht) as [Hn|[e Hn]]; rewrite Hn; simpl; [|done].
    destruct (truthy_nonempty _ Htv) as [Hn'|[e Hn']]; rewrite Hn'; simpl; [|done].
    intros H. injection H as <-. left.
    by rewrite <- !nonempty_true.
  - destruct (Builtins.truthy user && Builtins.truthy password
              && Builtins.truthy realm) eqn:Hupr.
    + apply andb_true_iff in Hupr as [Hup Hr].
      apply andb_true_iff in Hup as [Hu Hp].
      destruct (truthy_nonempty _ Hu) as [Hn|[e Hn]]; rewrite Hn; simpl; [|done].
      destruct (truthy_nonempty _ Hp) as [Hn'|[e Hn']]; rewrite Hn'; simpl; [|done].
      destruct (truthy_nonempty _ Hr) as [Hn''|[e Hn'']]; rewrite Hn''; simpl; [|done].
      intros H. injection H as <-. right; left.
      by rewrite <- !nonempty_true.
    + intros H. injection H as <-. by right; right.
Qed.

(** X13.  The credentials check never yields one of the two "Invalid ..." statuses
    of lines 139 and 145: it says Ok exactly when it sets the flag, and
    otherwise that the information is missing. *)
Theorem auth_status_never_invalid
    (token token_value user password realm : Py.value) (flag : bool) (status : string) :
  auth_check token token_value user password realm = Py.Ret (flag, status) →
  status ≠ "Invalid Token or Token Value"
  ∧ status ≠ "Invalid User, Password, or Realm"
  ∧ (flag = true ↔ status = "Ok (Token-based)" ∨ status = "Ok (User-password-based)")
  ∧ (flag = false ↔ status = "Missing Authentication Information").
Proof.
  intros H.
  destruct (auth_check_outcomes _ _ _ _ _ _ H) as [(Hac & _)|[(Hac & _)|(Hac & _)]];
    injection Hac as -> ->; repeat split; try done; auto.
  - intros [H1|H1]; discriminate H1.
Qed.

Lemma auth_status_never_invalid_witness :
  "Ok (Token-based)" ≠ "Invalid Token or Token Value"
  ∧ "Ok (Token-based)" ≠ "Invalid User, Password, or Realm"
  ∧ (true = true ↔ "Ok (Token-based)" = "Ok (Token-based)"
                   ∨ "Ok (Token-based)" = "Ok (User-password-based)")
  ∧ (true = false ↔ "Ok (Token-based)" = "Missing Authentication Information").
Proof.
  exact (auth_status_never_invalid
           (Builtins.get Fixtures.token_settings "token")
           (Builtins.get Fixtures.token_settings "token_value")
           (Builtins.get Fixtures.token_settings "user")
           (Builtins.get Fixtures.token_settings "password")
           (Builtins.get Fixtures.token_settings "realm")
           true "Ok (Token-based)" eq_refl).
Defined.

Lemma result_bind_contained {A B} (r : Py.result A) (k : A → Py.result B) :
  raises_exceptions_only r →
  (∀ a, raises_exceptions_only (k a)) →
  raises_exceptions_only (r ≫= k).
Proof.
  intros Hr Hk ex. destruct r as [a|e]; simpl.
  - apply Hk.
  - intros H. injection H as <-. by apply Hr.
Qed.

Lemma out_bind_contained {A B} (m : Out A) (k : A → Out B) :
  raises_exceptions_only m.2 →
  (∀ a, raises_exceptions_only (k a).2) →
  raises_exceptions_only (m ≫= k).2.
Proof.
  intros Hm Hk ex. destruct m as [out [a|e]]; unfold mbind, Out_bind.
  - specialize (Hk a ex). by destruct (k a) as [out' r].
  - simpl. intros H. injection H as <-. by apply Hm.
Qed.

Lemma try_except_contained {A} (body : Out A) (handler : Py.exn → Out A) :
  raises_exceptions_only body.2 →
  (∀ ex, raises_exceptions_only (handler ex).2) →
  raises_exceptions_only (try_except body handler).2.
Proof.
  intros Hb Hh ex. destruct body as [out [a|e]]; simpl; [done|].
  destruct (Py.is_Exception e) eqn:He.
  - specialize (Hh e ex). by destruct (handler e) as [out' r].
  - simpl. intros H. injection H as <-. by rewrite (Hb e eq_refl) in He.
Qed.

Lemma nonempty_contained (v : Py.value) : raises_exceptions_only (Builtins.nonempty v).
Proof. intros ex. destruct v; simpl; try done; intros H; by injection H as <-. Qed.

Lemma and_then_contained (a b : Py.result bool) :
  raises_exceptions_only a → raises_exceptions_only b →
  raises_exceptions_only (Builtins.and_then a b).
Proof.
  intros Ha Hb. apply result_bind_contained; [done|]. by intros [|].
Qed.

Lemma host_check_contained (host : Py.value) : raises_exceptions_only (host_check host).
Proof.
  unfold host_check. destruct (Py.is_none host); [done|].
  apply result_bind_contained; [apply nonempty_contained|]. by intros [|].
Qed.

Lemma auth_check_contained (token token_value user password realm : Py.value) :
  raises_exceptions_only (auth_check token token_value user password realm).
Proof.
  unfold auth_check.
  destruct (_ && _).
  - apply result_bind_contained; [|by intros [|]].
    apply and_then_contained; apply nonempty_contained.
  - destruct (_ && _); [|done].
    apply result_bind_contained; [|by intros [|]].
    repeat apply and_then_contained; apply nonempty_contained.
Qed.

Lemma settings_get_contained settings key :
  raises_exceptions_only (settings_get settings key).
Proof. destruct settings; intros ex H; [done | by injection H as <-]. Qed.

(** Closes a goal from a hypothesis that puts a line among printed lines
    it differs from. *)
Ltac by_lines H :=
  simpl in H;
  repeat (apply elem_of_cons in H as [H|H]; [discriminate H|]);
  by apply elem_of_nil in H.

Section Validate.
Context {Client : Type}.
Variable ProxmoxClient : gmap string Py.value → Py.result Client.
Variable get_all_vms : Client → Py.result Py.value.
Variable load : string → Py.result (option AppConfig).

#[local] Abbreviation validate_connection :=
  (validate_connection ProxmoxClient get_all_vms).
#[local] Abbreviation validate_proxmox_config :=
  (validate_proxmox_config ProxmoxClient get_all_vms).
#[local] Abbreviation validate_config :=
  (validate_config ProxmoxClient get_all_vms load).

(** [validate_connection], case by case. *)
Lemma validate_connection_some (d : gmap string Py.value) :
  validate_connection (Some d) =
    match ProxmoxClient d with
    | Py.Raise ex => (["  Try to connect to Proxmox..."], Py.Raise ex)
    | Py.Ret c =>
        match get_all_vms c with
        | Py.Ret _ => (["  Try to connect to Proxmox...";
                        "    Successfully connected."], Py.Ret true)
        | Py.Raise ex =>
            if Py.is_Exception ex
            then (["  Try to connect to Proxmox...";
                   "    (!) Unable to connect to Proxmox: " +:+ Py.exn_str ex],
                  Py.Ret false)
            else (["  Try to connect to Proxmox..."], Py.Raise ex)
        end
    end.
Proof.
  unfold Validation.validate_connection, mbind, Out_bind, mret, Out_ret,
    print, lift, try_except. simpl.
  destruct (ProxmoxClient d) as [c|ex]; [|done].
  destruct (get_all_vms c) as [v|ex]; [done|].
  by destruct (Py.is_Exception ex).
Qed.

(** [validate_proxmox_config] over a settings dictionary, case by case. *)
Lemma validate_proxmox_config_some (d : gmap string Py.value) :
  validate_proxmox_config (Some d) =
    match host_check (Builtins.get d "host") with
    | Py.Raise ex => (["⌜ Proxmox settings validation: starting..."], Py.Raise ex)
    | Py.Ret hc =>
        match auth_check (Builtins.get d "token") (Builtins.get d "token_value")
                (Builtins.get d "user") (Builtins.get d "password")
                (Builtins.get d "realm") with
        | Py.Raise ex =>
            (["⌜ Proxmox settings validation: starting...";
              "  Proxmox host: " +:+ hc.2], Py.Raise ex)
        | Py.Ret ac =>
            if hc.1 && ac.1 then
              match validate_connection (Some d) with
              | (out, Py.Ret connected) =>
                  (["⌜ Proxmox settings validation: starting...";
                    "  Proxmox host: " +:+ hc.2;
                    "  Proxmox authentication: " +:+ ac.2]
                     ++ out ++ ["∟ Proxmox settings validation: completed."],
                   Py.Ret connected)
              | (out, Py.Raise ex) =>
                  (["⌜ Proxmox settings validation: starting...";
                    "  Proxmox host: " +:+ hc.2;
                    "  Proxmox authentication: " +:+ ac.2] ++ out, Py.Raise ex)
              end
            else
              (["⌜ Proxmox settings validation: starting...";
                "  Proxmox host: " +:+ hc.2;
                "  Proxmox authentication: " +:+ ac.2;
                "∟ Proxmox settings validation: completed."], Py.Ret false)
        end
    end.
Proof.
  unfold Validation.validate_proxmox_config, mbind, Out_bind, mret, Out_ret,
    print, lift, settings_get. simpl.
  destruct (host_check (Builtins.get d "host")) as [hc|ex]; [|done].
  destruct (auth_check _ _ _ _ _) as [ac|ex]; [|done].
  destruct (hc.1 && ac.1); [|done].
  destruct (Validation.validate_connection _ _ _) as [out [connected|ex]]; [|done].
  simpl. by rewrite <- app_assoc.
Qed.

Lemma validate_proxmox_config_none :
  validate_proxmox_config None
  = (["⌜ Proxmox settings validation: starting..."],
     Py.Raise (attribute_error "get")).
Proof. reflexivity. Qed.

(** X14.  A verdict of True is sound.  The settings are a dictionary; their
    host is not None and [len(host) > 0] holds; the token and its value are
    both truthy and of positive length, or else user, password and realm
    are; the client could be built from the settings and [get_all_vms]
    returned, which the report says. *)
Theorem validate_proxmox_config_true_is_sound
    (settings : option (gmap string Py.value)) (out : list string) :
  validate_proxmox_config settings = (out, Py.Ret true) →
  ∃ d c v,
    settings = Some d
    ∧ (Builtins.get d "host" ≠ Py.PyNone
       ∧ Builtins.nonempty (Builtins.get d "host") = Py.Ret true)
    ∧ ((Builtins.truthy (Builtins.get d "token") = true
        ∧ Builtins.truthy (Builtins.get d "token_value") = true
        ∧ Builtins.nonempty (Builtins.get d "token") = Py.Ret true
        ∧ Builtins.nonempty (Builtins.get d "token_value") = Py.Ret true)
       ∨ (Builtins.truthy (Builtins.get d "user") = true
          ∧ Builtins.truthy (Builtins.get d "password") = true
          ∧ Builtins.truthy (Builtins.get d "realm") = true
          ∧ Builtins.nonempty (Builtins.get d "user") = Py.Ret true
          ∧ Builtins.nonempty (Builtins.get d "password") = Py.Ret true
          ∧ Builtins.nonempty (Builtins.get d "realm") = Py.Ret true))
    ∧ ProxmoxClient d = Py.Ret c
    ∧ get_all_vms c = Py.Ret v
    ∧ "    Successfully connected." ∈ out.
Proof.
  destruct settings as [d|]; [|by rewrite validate_proxmox_config_none].
  rewrite validate_proxmox_config_some.
  destruct (host_check _) as [hc|ex] eqn:Hhost; [|done].
  destruct (auth_check _ _ _ _ _) as [ac|ex] eqn:Hauth; [|done].
  destruct (hc.1 && ac.1) eqn:Hboth; [|done].
  apply andb_true_iff in Hboth as [Hh Ha].
  rewrite validate_connection_some.
  destruct (ProxmoxClient d) as [c|ex] eqn:Hc; [|done].
  destruct (get_all_vms c) as [v|ex] eqn:Hv; [|by destruct (Py.is_Exception ex)].
  intros H. injection H as <-. exists d, c, v.
  split; [done|]. split; [|split; [|split; [done|split; [done|]]]].
  - destruct (host_check_cases _ _ Hhost) as [(-> & _)|[(_ & Hs)|(-> & _)]];
      [done| |done].
    split; [|by apply nonempty_true]. destruct Hs as (s & -> & _). done.
  - destruct (auth_check_outcomes _ _ _ _ _ _ Hauth)
      as [(_ & Ht & Htv)|[(_ & Hu & Hp & Hr)|(-> & _)]]; [left | right | done].
    + pose proof (present_truthy _ Ht). pose proof (present_truthy _ Htv).
      by rewrite !(proj2 (nonempty_true _)).
    + pose proof (present_truthy _ Hu). pose proof (present_truthy _ Hp).
      pose proof (present_truthy _ Hr).
      by rewrite !(proj2 (nonempty_true _)).
  - simpl. do 4 apply list_elem_of_further. apply list_elem_of_here.
Qed.

(** X15.  A connection is attempted only after both checks said Ok: when the
    "Try to connect" line is printed, so were "Proxmox host: Ok" and one of
    the two Ok lines for the credentials. *)
Theorem connection_attempted_only_when_complete
    (settings : option (gmap string Py.value)) (out : list string)
    (r : Py.result bool) :
  validate_proxmox_config settings = (out, r) →
  "  Try to connect to Proxmox..." ∈ out →
  "  Proxmox host: Ok" ∈ out
  ∧ ("  Proxmox authentication: Ok (Token-based)" ∈ out
     ∨ "  Proxmox authentication: Ok (User-password-based)" ∈ out).
Proof.
  destruct settings as [d|].
  - rewrite validate_proxmox_config_some.
    destruct (host_check _) as [hc|ex] eqn:Hhost.
    2:{ intros H Hin. injection H as <- _. by_lines Hin. }
    assert (hc = (false, "Missing") ∨ hc = (true, "Ok") ∨ hc = (false, "Empty")) as Hhc.
    { destruct (host_check_cases _ _ Hhost) as [(-> & _)|[(-> & _)|(-> & _)]]; auto. }
    destruct (auth_check _ _ _ _ _) as [ac|ex] eqn:Hauth.
    2:{ intros H Hin. injection H as <- _.
        destruct Hhc as [->|[->| ->]]; by_lines Hin. }
    assert (ac = (true, "Ok (Token-based)") ∨ ac = (true, "Ok (User-password-based)")
            ∨ ac = (false, "Missing Authentication Information")) as Hac.
    { destruct (auth_check_outcomes _ _ _ _ _ _ Hauth)
        as [(-> & _)|[(-> & _)|(-> & _)]]; auto. }
    destruct (hc.1 && ac.1) eqn:Hboth.
    + assert (hc = (true, "Ok")) as ->
        by (destruct Hhc as [->|[->| ->]]; done).
      assert (ac.1 = true) as Ha by (by apply andb_true_iff in Hboth as [_ ?]).
      destruct (Validation.validate_connection _ _ _) as [o [connected|ex]];
        intros H _; injection H as <- _; simpl.
      * split; [apply list_elem_of_further, list_elem_of_here|].
        destruct Hac as [->|[->| ->]]; [left | right | done];
          do 2 apply list_elem_of_further; apply list_elem_of_here.
      * split; [apply list_elem_of_further, list_elem_of_here|].
        destruct Hac as [->|[->| ->]]; [left | right | done];
          do 2 apply list_elem_of_further; apply list_elem_of_here.
    + intros H Hin. injection H as <- _.
      destruct Hhc as [->|[->| ->]]; destruct Hac as [->|[->| ->]]; by_lines Hin.
  - rewrite validate_proxmox_config_none. intros H Hin. injection H as <- _.
    by_lines Hin.
Qed.

(** X16.  With a host and credentials in place a connection is tried, and the two
    ways it can fail differ: an error of [get_all_vms] is reported as
    "Unable to connect" and gives False, an error of the client's
    constructor leaves the function as an exception, before the footer. *)
Theorem validate_proxmox_config_connection
    (d : gmap string Py.value) (host status : string) :
  Builtins.get d "host" = Py.PyStr host →
  host ≠ "" →
  auth_check (Builtins.get d "token") (Builtins.get d "token_value")
    (Builtins.get d "user") (Builtins.get d "password") (Builtins.get d "realm")
  = Py.Ret (true, status) →
  validate_proxmox_config (Some d) =
    match ProxmoxClient d with
    | Py.Raise ex =>
        (["⌜ Proxmox settings validation: starting...";
          "  Proxmox host: Ok";
          "  Proxmox authentication: " +:+ status;
          "  Try to connect to Proxmox..."], Py.Raise ex)
    | Py.Ret c =>
        match get_all_vms c with
        | Py.Ret _ =>
            (["⌜ Proxmox settings validation: starting...";
              "  Proxmox host: Ok";
              "  Proxmox authentication: " +:+ status;
              "  Try to connect to Proxmox...";
              "    Successfully connected.";
              "∟ Proxmox settings validation: completed."], Py.Ret true)
        | Py.Raise ex =>
            if Py.is_Exception ex
            then (["⌜ Proxmox settings validation: starting...";
                   "  Proxmox host: Ok";
                   "  Proxmox authentication: " +:+ status;
                   "  Try to connect to Proxmox...";
                   "    (!) Unable to connect to Proxmox: " +:+ Py.exn_str ex;
                   "∟ Proxmox settings validation: completed."], Py.Ret false)
            else (["⌜ Proxmox settings validation: starting...";
                   "  Proxmox host: Ok";
                   "  Proxmox authentication: " +:+ status;
                   "  Try to connect to Proxmox..."], Py.Raise ex)
        end
    end.
Proof.
  intros Hhost Hne Hauth. rewrite validate_proxmox_config_some, Hauth.
  assert (host_check (Builtins.get d "host") = Py.Ret (true, "Ok")) as ->.
  { assert (Builtins.nonempty (Py.PyStr host) = Py.Ret true) as Hn
      by (apply nonempty_true; by exists host).
    rewrite Hhost. unfold host_check. by rewrite Hn. }
  simpl. rewrite validate_connection_some.
  destruct (ProxmoxClient d) as [c|ex]; [|done].
  destruct (get_all_vms c) as [v|ex]; [done|].
  by destruct (Py.is_Exception ex).
Qed.

(** [validate_config] when the file was loaded and has a proxmox section. *)
Lemma validate_config_loaded (app_config : AppConfig) (pc : ProxmoxConfig) :
  load CONFIG_FILE = Py.Ret (Some app_config) →
  proxmox_config app_config = Some pc →
  validate_config_body ProxmoxClient get_all_vms load =
    match validate_proxmox_config (px_settings pc) with
    | (out, Py.Raise ex) => (["Config loaded."] ++ findings app_config pc ++ out, Py.Raise ex)
    | (out, Py.Ret valid) =>
        match validate_vms_call (start_options pc) with
        | (out', Py.Raise ex) =>
            (["Config loaded."] ++ findings app_config pc ++ out ++ out', Py.Raise ex)
        | (out', Py.Ret _) =>
            (["Config loaded."] ++ findings app_config pc ++ out ++ out'
               ++ [verdict valid], Py.Ret ())
        end
    end.
Proof.
  intros Hload Hpc.
  unfold validate_config_body, findings, mbind, Out_bind, lift, print, config_attr,
    section_attr, when, mret, Out_ret.
  rewrite Hload, Hpc. simpl.
  destruct (bool_decide (px_settings pc = None));
    destruct (bool_decide (app_settings app_config = None));
    destruct (none_or_empty (start_options pc));
    destruct (none_or_empty (notification_settings app_config)); simpl;
    destruct (Validation.validate_proxmox_config _ _ _) as [out [valid|ex]]; simpl;
    try done;
    destruct (validate_vms_call (start_options pc)) as [out' [u|ex]]; simpl;
    rewrite <- ?app_assoc; try done;
    destruct valid; done.
Qed.

(** X17.  The verdict is that of the proxmox settings alone.  When they were
    validated and the list of start settings is there, the report is: the
    findings, the proxmox report, the report on the start settings, and a
    last line that depends on the proxmox flag only, not on any wrong id. *)
Theorem validate_config_verdict
    (app_config : AppConfig) (pc : ProxmoxConfig) (starts : list VMLaunchSettings)
    (out : list string) (valid : bool) :
  load CONFIG_FILE = Py.Ret (Some app_config) →
  proxmox_config app_config = Some pc →
  start_options pc = Some starts →
  validate_proxmox_config (px_settings pc) = (out, Py.Ret valid) →
  validate_config
  = (["Start validating 'config.yaml'..."; "Config loaded."]
       ++ findings app_config pc ++ out ++ (validate_vms starts).1
       ++ [if valid then "Config validated successfully."
           else "Config validated with errors."],
     Returned).
Proof.
  intros Hload Hpc Hstarts Hpx. unfold Validation.validate_config.
  unfold mbind at 1, Out_bind at 1, print at 1, try_except.
  rewrite (validate_config_loaded app_config pc Hload Hpc), Hpx, Hstarts. simpl.
  by destruct valid.
Qed.

(** X18.  A proxmox section without the list of start settings never gets a
    verdict: the report ends with the TypeError of [len(None)], even when the
    proxmox settings are valid. *)
Theorem validate_config_without_start_options
    (app_config : AppConfig) (pc : ProxmoxConfig) (out : list string) (valid : bool) :
  load CONFIG_FILE = Py.Ret (Some app_config) →
  proxmox_config app_config = Some pc →
  start_options pc = None →
  validate_proxmox_config (px_settings pc) = (out, Py.Ret valid) →
  validate_config
  = (["Start validating 'config.yaml'..."; "Config loaded."]
       ++ findings app_config pc ++ out
       ++ ["⌜ Start settings validation: starting...";
           "(!) Error occurred during reading config: object of type 'NoneType' has no len()"],
     Returned).
Proof.
  intros Hload Hpc Hstarts Hpx. unfold Validation.validate_config.
  unfold mbind at 1, Out_bind at 1, print at 1, try_except.
  rewrite (validate_config_loaded app_config pc Hload Hpc), Hpx, Hstarts. simpl.
  by rewrite <- !app_assoc.
Qed.

Section Contained.
Hypothesis load_contained : ∀ path, raises_exceptions_only (load path).
Hypothesis client_contained : ∀ d, raises_exceptions_only (ProxmoxClient d).
Hypothesis get_all_vms_contained : ∀ c, raises_exceptions_only (get_all_vms c).

Lemma validate_connection_contained settings :
  raises_exceptions_only (validate_connection settings).2.
Proof.
  unfold Validation.validate_connection.
  apply out_bind_contained; [done|]. intros _.
  apply out_bind_contained.
  { destruct settings; intros ex H; [done | by injection H as <-]. }
  intros kwargs. apply out_bind_contained; [apply client_contained|]. intros c.
  apply try_except_contained.
  - apply out_bind_contained; [apply get_all_vms_contained|]. done.
  - done.
Qed.

Lemma validate_proxmox_config_contained settings :
  raises_exceptions_only (validate_proxmox_config settings).2.
Proof.
  unfold Validation.validate_proxmox_config.
  apply out_bind_contained; [done|]. intros _.
  apply out_bind_contained; [apply settings_get_contained|]. intros host.
  apply out_bind_contained; [apply host_check_contained|]. intros hc.
  apply out_bind_contained; [done|]. intros _.
  do 5 (apply out_bind_contained; [apply settings_get_contained|]; intros ?).
  apply out_bind_contained; [apply auth_check_contained|]. intros ac.
  apply out_bind_contained; [done|]. intros _.
  apply out_bind_contained; [|done].
  destruct (hc.1 && ac.1); [|done].
  apply out_bind_contained; [apply validate_connection_contained | done].
Qed.

Lemma validate_config_body_contained :
  raises_exceptions_only (validate_config_body ProxmoxClient get_all_vms load).2.
Proof.
  unfold validate_config_body.
  apply out_bind_contained; [apply load_contained|]. intros app_config.
  apply out_bind_contained; [done|]. intros _.
  apply out_bind_contained.
  { destruct app_config; intros ex H; [done | by injection H as <-]. }
  intros pc. apply out_bind_contained; [by destruct pc as [c|]; [destruct (bool_decide _)|]|].
  intros _. apply out_bind_contained.
  { destruct app_config; intros ex H; [done | by injection H as <-]. }
  intros aps. apply out_bind_contained; [by destruct (bool_decide _)|]. intros _.
  apply out_bind_contained.
  { destruct pc as [c|]; [by destruct (none_or_empty _) | done]. }
  intros _. apply out_bind_contained.
  { destruct app_config; intros ex H; [done | by injection H as <-]. }
  intros ns. apply out_bind_contained; [by destruct (none_or_empty _)|]. intros _.
  apply out_bind_contained.
  { destruct pc; intros ex H; [done | by injection H as <-]. }
  intros settings.
  apply out_bind_contained; [apply validate_proxmox_config_contained|]. intros valid.
  apply out_bind_contained.
  { destruct pc; intros ex H; [done | by injection H as <-]. }
  intros options. apply out_bind_contained.
  { destruct options; intros ex H; [done | by injection H as <-]. }
  intros _. by destruct valid.
Qed.

End Contained.

(** X19.  [validate_config] lets no [Exception] out: when the loader, the client's
    constructor and [get_all_vms] raise nothing but instances of
    [Exception], every failure ends up in the report and the function
    returns. *)
Theorem validate_config_contains_exceptions :
  (∀ path, raises_exceptions_only (load path)) →
  (∀ d, raises_exceptions_only (ProxmoxClient d)) →
  (∀ c, raises_exceptions_only (get_all_vms c)) →
  validate_config.2 = Returned.
Proof.
  intros Hload Hclient Hget.
  pose proof (validate_config_body_contained Hload Hclient Hget) as Hbody.
  unfold Validation.validate_config, mbind, Out_bind, print, try_except.
  destruct (validate_config_body ProxmoxClient get_all_vms load) as [out [u|ex]];
    simpl; [done|].
  by rewrite (Hbody ex eq_refl).
Qed.

(** X20.  A configuration without access settings never gets a verdict: after the
    finding "Proxmox access config is missing" the report ends with the
    AttributeError that the missing part causes on line 86. *)
Theorem validate_config_access_missing (app_config : AppConfig) :
  load CONFIG_FILE = Py.Ret (Some app_config) →
  proxmox_config app_config = None
    ∨ (∃ pc, proxmox_config app_config = Some pc ∧ px_settings pc = None) →
  ∃ pre attr,
    (validate_config
     = (pre ++ ["(!) Error occurred during reading config: 'NoneType' object has no attribute '"
                  +:+ attr +:+ "'"], Returned))
    ∧ ("(!) Proxmox access config is missing." ∈ pre)
    ∧ ("Config validated successfully." ∉ pre)
    ∧ ("Config validated with errors." ∉ pre).
Proof.
  intros Hload [Hpc|(pc & Hpc & Hpx)].
  - exists (["Start validating 'config.yaml'..."; "Config loaded.";
             "(!) Proxmox access config is missing."]
            ++ (if bool_decide (app_settings app_config = None)
                then ["(!) Optional App setting section is missing"] else [])
            ++ (if none_or_empty (notification_settings app_config)
                then ["(!) Notification settings are missed"] else [])),
           "px_settings".
    unfold Validation.validate_config, validate_config_body, mbind, Out_bind, lift,
      print, try_except, config_attr, section_attr, when, mret, Out_ret.
    rewrite Hload, Hpc. simpl.
    destruct (bool_decide (app_settings app_config = None));
      destruct (none_or_empty (notification_settings app_config)); simpl;
      (split; [reflexivity|]);
      (split; [do 2 apply list_elem_of_further; apply list_elem_of_here|]);
      split; intros Hin; by_lines Hin.
  - exists (["Start validating 'config.yaml'..."; "Config loaded."]
            ++ findings app_config pc
            ++ ["⌜ Proxmox settings validation: starting..."]), "get".
    unfold Validation.validate_config.
    unfold mbind at 1, Out_bind at 1, print at 1, try_except.
    rewrite (validate_config_loaded app_config pc Hload Hpc), Hpx.
    rewrite validate_proxmox_config_none. unfold findings. rewrite Hpx. simpl.
    destruct (bool_decide (app_settings app_config = None));
      destruct (none_or_empty (start_options pc));
      destruct (none_or_empty (notification_settings app_config)); simpl;
      (split; [reflexivity|]);
      (split; [do 2 apply list_elem_of_further; apply list_elem_of_here|]);
      split; intros Hin; by_lines Hin.
Qed.

End Validate.

Lemma validate_proxmox_config_true_is_sound_witness :
  ∃ d c v,
    Some Fixtures.token_settings = Some d
    ∧ (Builtins.get d "host" ≠ Py.PyNone
       ∧ Builtins.nonempty (Builtins.get d "host") = Py.Ret true)
    ∧ ((Builtins.truthy (Builtins.get d "token") = true
        ∧ Builtins.truthy (Builtins.get d "token_value") = true
        ∧ Builtins.nonempty (Builtins.get d "token") = Py.Ret true
        ∧ Builtins.nonempty (Builtins.get d "token_value") = Py.Ret true)
       ∨ (Builtins.truthy (Builtins.get d "user") = true
          ∧ Builtins.truthy (Builtins.get d "password") = true
          ∧ Builtins.truthy (Builtins.get d "realm") = true
          ∧ Builtins.nonempty (Builtins.get d "user") = Py.Ret true
          ∧ Builtins.nonempty (Builtins.get d "password") = Py.Ret true
          ∧ Builtins.nonempty (Builtins.get d "realm") = Py.Ret true))
    ∧ Scenario.accepted_login d = Py.Ret c
    ∧ Fixtures.reachable c = Py.Ret v
    ∧ "    Successfully connected."
        ∈ ["⌜ Proxmox settings validation: starting...";
           "  Proxmox host: Ok";
           "  Proxmox authentication: Ok (Token-based)";
           "  Try to connect to Proxmox...";
           "    Successfully connected.";
           "∟ Proxmox settings validation: completed."].
Proof.
  apply (validate_proxmox_config_true_is_sound Scenario.accepted_login
           Fixtures.reachable (Some Fixtures.token_settings)
           ["⌜ Proxmox settings validation: starting...";
            "  Proxmox host: Ok";
            "  Proxmox authentication: Ok (Token-based)";
            "  Try to connect to Proxmox...";
            "    Successfully connected.";
            "∟ Proxmox settings validation: completed."]).
  reflexivity.
Defined.

Lemma connection_attempted_only_when_complete_witness :
  "  Proxmox host: Ok"
    ∈ (validate_proxmox_config Scenario.accepted_login Fixtures.unreachable
         (Some Fixtures.token_settings)).1
  ∧ ("  Proxmox authentication: Ok (Token-based)"
       ∈ (validate_proxmox_config Scenario.accepted_login Fixtures.unreachable
            (Some Fixtures.token_settings)).1
     ∨ "  Proxmox authentication: Ok (User-password-based)"
       ∈ (validate_proxmox_config Scenario.accepted_login Fixtures.unreachable
            (Some Fixtures.token_settings)).1).
Proof.
  apply (connection_attempted_only_when_complete Scenario.accepted_login
           Fixtures.unreachable (Some Fixtures.token_settings) _ (Py.Ret false)).
  - reflexivity.
  - do 3 apply list_elem_of_further. apply list_elem_of_here.
Defined.

Lemma validate_proxmox_config_connection_witness :
  validate_proxmox_config Scenario.accepted_login Fixtures.unreachable
    (Some Fixtures.token_settings)
  = (["⌜ Proxmox settings validation: starting...";
      "  Proxmox host: Ok";
      "  Proxmox authentication: Ok (Token-based)";
      "  Try to connect to Proxmox...";
      "    (!) Unable to connect to Proxmox: timed out";
      "∟ Proxmox settings validation: completed."], Py.Ret false).
Proof.
  apply (validate_proxmox_config_connection Scenario.accepted_login
           Fixtures.unreachable Fixtures.token_settings "pve.local" "Ok (Token-based)");
    [reflexivity | discriminate | reflexivity].
Defined.

(** A valid connection and a list with two wrong ids: both are reported,
    and the verdict is still "successfully". *)
Lemma validate_config_verdict_witness :
  validate_config Scenario.accepted_login Fixtures.reachable
    (λ _, Py.Ret (Some (Fixtures.config_with (Some Fixtures.token_settings)
                          (Some [Scenario.vm (Py.PyInt 0); Scenario.vm (Py.PyInt 101);
                                 Scenario.vm Py.PyNone]))))
  = (["Start validating 'config.yaml'..."; "Config loaded.";
      "⌜ Proxmox settings validation: starting...";
      "  Proxmox host: Ok";
      "  Proxmox authentication: Ok (Token-based)";
      "  Try to connect to Proxmox...";
      "    Successfully connected.";
      "∟ Proxmox settings validation: completed.";
      "⌜ Start settings validation: starting...";
      "  Found 3 vm start settings.";
      "  (!) Wrong VM id: 0";
      "  (!) Wrong VM id: None";
      "∟ Start settings validation: completed.";
      "Config validated successfully."], Returned).
Proof.
  apply (validate_config_verdict Scenario.accepted_login Fixtures.reachable _
           (Fixtures.config_with (Some Fixtures.token_settings)
              (Some [Scenario.vm (Py.PyInt 0); Scenario.vm (Py.PyInt 101);
                     Scenario.vm Py.PyNone]))
           {| px_settings := Some Fixtures.token_settings;
              start_options := Some [Scenario.vm (Py.PyInt 0); Scenario.vm (Py.PyInt 101);
                                     Scenario.vm Py.PyNone] |}
           [Scenario.vm (Py.PyInt 0); Scenario.vm (Py.PyInt 101); Scenario.vm Py.PyNone]
           ["⌜ Proxmox settings validation: starting...";
            "  Proxmox host: Ok";
            "  Proxmox authentication: Ok (Token-based)";
            "  Try to connect to Proxmox...";
            "    Successfully connected.";
            "∟ Proxmox settings validation: completed."]
           true);
    reflexivity.
Defined.

Lemma validate_config_without_start_options_witness :
  validate_config Scenario.accepted_login Fixtures.reachable
    (λ _, Py.Ret (Some (Fixtures.config_with (Some Fixtures.token_settings) None)))
  = (["Start validating 'config.yaml'..."; "Config loaded.";
      "(!) There is no VM's to start in config";
      "⌜ Proxmox settings validation: starting...";
      "  Proxmox host: Ok";
      "  Proxmox authentication: Ok (Token-based)";
      "  Try to connect to Proxmox...";
      "    Successfully connected.";
      "∟ Proxmox settings validation: completed.";
      "⌜ Start settings validation: starting...";
      "(!) Error occurred during reading config: object of type 'NoneType' has no len()"],
     Returned).
Proof.
  apply (validate_config_without_start_options Scenario.accepted_login
           Fixtures.reachable _
           (Fixtures.config_with (Some Fixtures.token_settings) None)
           {| px_settings := Some Fixtures.token_settings; start_options := None |}
           ["⌜ Proxmox settings validation: starting...";
            "  Proxmox host: Ok";
            "  Proxmox authentication: Ok (Token-based)";
            "  Try to connect to Proxmox...";
            "    Successfully connected.";
            "∟ Proxmox settings validation: completed."]
           true);
    reflexivity.
Defined.

Lemma validate_config_contains_exceptions_witness :
  (validate_config Scenario.rejected_login Fixtures.unreachable
     (λ _, Py.Ret (Some (Fixtures.config_with (Some Fixtures.token_settings)
                           (Some []))))).2
  = Returned.
Proof.
  apply validate_config_contains_exceptions.
  - intros path ex H. discriminate H.
  - intros d ex H. by injection H as <-.
  - intros c ex H. by injection H as <-.
Defined.

Lemma validate_config_access_missing_witness :
  ∃ pre attr,
    (validate_config Scenario.accepted_login Fixtures.reachable
       (λ _, Py.Ret (Some Fixtures.config_without_proxmox))
     = (pre ++ ["(!) Error occurred during reading config: 'NoneType' object has no attribute '"
                  +:+ attr +:+ "'"], Returned))
    ∧ ("(!) Proxmox access config is missing." ∈ pre)
    ∧ ("Config validated successfully." ∉ pre)
    ∧ ("Config validated with errors." ∉ pre).
Proof.
  apply (validate_config_access_missing Scenario.accepted_login Fixtures.reachable _
           Fixtures.config_without_proxmox); [reflexivity | by left].
Defined.

(** The client cannot be built from valid-looking settings: the exception
    is caught by [validate_config], not by [validate_connection]. *)
Example validate_config_rejected_login :
  validate_config Scenario.rejected_login Fixtures.reachable
    (λ _, Py.Ret (Some (Fixtures.config_with (Some Fixtures.token_settings) (Some []))))
  = (["Start validating 'config.yaml'..."; "Config loaded.";
      "(!) There is no VM's to start in config";
      "⌜ Proxmox settings validation: starting...";
      "  Proxmox host: Ok";
      "  Proxmox authentication: Ok (Token-based)";
      "  Try to connect to Proxmox...";
      "(!) Error occurred during reading config: Couldn't authenticate user: root@pam to https://pve.local:8006"],
     Returned).
Proof. reflexivity. Qed.

(** Without a host no connection is tried and the verdict is "with errors". *)
Example validate_config_hostless :
  validate_config Scenario.rejected_login Fixtures.reachable
    (λ _, Py.Ret (Some (Fixtures.config_with (Some Fixtures.hostless_settings)
                          (Some [Scenario.vm (Py.PyInt 101)]))))
  = (["Start validating 'config.yaml'..."; "Config loaded.";
      "⌜ Proxmox settings validation: starting...";
      "  Proxmox host: Missing";
      "  Proxmox authentication: Ok (User-password-based)";
      "∟ Proxmox settings validation: completed.";
      "⌜ Start settings validation: starting...";
      "  Found 1 vm start settings.";
      "∟ Start settings validation: completed.";
      "Config validated with errors."], Returned).
Proof. reflexivity. Qed.

End ValidationFacts.
